(** * sensor-metrics.py: the sampling loop of the shop sensor exporter

    A shallow embedding of [src/sensor-metrics.py] and the properties of its
    sampling, compensation and averaging code.

    - Python numbers are embedded as [pynum]: unbounded integers ([Z]) and
      binary64 floats (the primitive [float]), with the coercions, the
      exceptions and the correctly rounded operations of the language.
    - The devices, the thermal-zone file and the metrics registry are
      external: a device answers a call as a function of the whole history
      of calls issued so far ([environment]); every call can raise.
    - The program runs in a state-and-exception monad over the history of
      calls ([trace]), the gauges of the registry and the local lists of
      [read_values]. *)

From Stdlib Require Import ZArith Lia List String Ascii.
From Stdlib Require Import Floats.PrimFloat Floats.FloatOps Floats.SpecFloat.
From Stdlib Require Import Uint63.
From stdpp Require Import base option list gmap strings.

Set Warnings "-inexact-float".
Set Default Proof Using "Type".

(* ================================================================= *)
(** ** Exceptions and results *)

(** The exception classes the program can meet.  [ReadTimeoutError] and
    [ChecksumMismatchError] are the two classes imported from [pms5003]
    (line 7); the others are raised by the builtins or by the devices. *)
Inductive exn : Type :=
| ReadTimeoutError
| ChecksumMismatchError
| OSError
| ValueError
| ZeroDivisionError
| OverflowError
| OtherError (name : string).

Inductive result (A : Type) : Type :=
| Ok (a : A)
| Raise (e : exn).
Arguments Ok {A} a.
Arguments Raise {A} e.

Definition rbind {A B} (r : result A) (k : A -> result B) : result B :=
  match r with
  | Ok a => k a
  | Raise e => Raise e
  end.

Notation "'let?' x ':=' r 'in' k" := (rbind r (fun x => k))
  (at level 10, x name, r at level 100, k at level 200).

(* ================================================================= *)
(** ** Python numbers *)

Module Py.

Local Open Scope Z_scope.

Inductive pynum : Type :=
| PyInt (z : Z)
| PyFloat (f : float).

(** Nearest integer to [n / d] for [0 < d], ties to the even integer. *)
Definition round_half_even (n d : Z) : Z :=
  let q := n / d in
  let r := n mod d in
  match 2 * r ?= d with
  | Lt => q
  | Gt => q + 1
  | Eq => if Z.even q then q else q + 1
  end.

(** The binary64 float nearest to the rational [p / q] ([0 <= p], [0 < q]),
    ties to even, with the sign [neg]; infinite when the rounded value
    exceeds the largest finite float, subnormal or zero below the smallest
    normal one.  This is the rounding of CPython's int-to-float conversion,
    of its int/int true division and of its decimal-string-to-float
    conversion. *)
Definition nearest_float (neg : bool) (p q : Z) : float :=
  if p =? 0 then (if neg then neg_zero else zero) else
  let e0 := Z.log2 p - Z.log2 q in
  let below := if 0 <=? e0 then p <? q * 2 ^ e0 else p * 2 ^ (- e0) <? q in
  let e := if below then e0 - 1 else e0 in
  let s := Z.max (e - 52) (-1074) in
  let m := if 0 <=? s then round_half_even p (q * 2 ^ s)
           else round_half_even (p * 2 ^ (- s)) q in
  let f := Z.ldexp (of_uint63 (Uint63.of_Z m)) s in
  if neg then (- f)%float else f.

(** [float(z)] for an int: OverflowError when the int is too large. *)
Definition float_of_int (z : Z) : result float :=
  let f := nearest_float (z <? 0) (Z.abs z) 1 in
  if is_infinity f then Raise OverflowError else Ok f.

(** [float(x)]. *)
Definition py_float (x : pynum) : result float :=
  match x with
  | PyInt z => float_of_int z
  | PyFloat f => Ok f
  end.

(** [x + y], [x - y], [x * y]: exact on two ints; otherwise the int operand
    is converted and the operation is that of binary64. *)
Definition py_add (x y : pynum) : result pynum :=
  match x, y with
  | PyInt a, PyInt b => Ok (PyInt (a + b))
  | _, _ => let? a := py_float x in let? b := py_float y in
            Ok (PyFloat (a + b)%float)
  end.

Definition py_sub (x y : pynum) : result pynum :=
  match x, y with
  | PyInt a, PyInt b => Ok (PyInt (a - b))
  | _, _ => let? a := py_float x in let? b := py_float y in
            Ok (PyFloat (a - b)%float)
  end.

Definition py_mul (x y : pynum) : result pynum :=
  match x, y with
  | PyInt a, PyInt b => Ok (PyInt (a * b))
  | _, _ => let? a := py_float x in let? b := py_float y in
            Ok (PyFloat (a * b)%float)
  end.

(** [x / y]: always a float.  On two ints the quotient is correctly
    rounded; a zero divisor raises ZeroDivisionError. *)
Definition py_truediv (x y : pynum) : result pynum :=
  match x, y with
  | PyInt a, PyInt b =>
      if b =? 0 then Raise ZeroDivisionError else
      let f := nearest_float (xorb (a <? 0) (b <? 0)) (Z.abs a) (Z.abs b) in
      if is_infinity f then Raise OverflowError else Ok (PyFloat f)
  | _, _ =>
      let? a := py_float x in
      let? b := py_float y in
      if (b =? 0)%float then Raise ZeroDivisionError
      else Ok (PyFloat (a / b)%float)
  end.

(** [round(x, ndigits)] on a float, for [0 <= ndigits]: the decimal with
    [ndigits] digits after the point nearest to the exact value of [x]
    (ties to the even last digit), converted back to the nearest float.
    Infinities and NaN round to themselves. *)
Definition float_round (x : float) (ndigits : N) : float :=
  match Prim2SF x with
  | S754_finite neg m e =>
      let scale := 10 ^ Z.of_N ndigits in
      let n := if 0 <=? e then scale * Zpos m * 2 ^ e
               else round_half_even (scale * Zpos m) (2 ^ (- e)) in
      nearest_float neg n scale
  | _ => x
  end.

(** [round(x, ndigits)], for [0 <= ndigits]: an int is returned as it is. *)
Definition py_round (x : pynum) (ndigits : N) : pynum :=
  match x with
  | PyInt z => PyInt z
  | PyFloat f => PyFloat (float_round f ndigits)
  end.

(** [sum(xs)]: the items are added from left to right, starting from the
    int 0.  (CPython 3.12 and later add floats with a compensated sum, whose
    result can differ from this one in the last bits.) *)
Fixpoint sum_from (acc : pynum) (xs : list pynum) : result pynum :=
  match xs with
  | [] => Ok acc
  | x :: xs' => let? acc' := py_add acc x in sum_from acc' xs'
  end.

Definition py_sum (xs : list pynum) : result pynum := sum_from (PyInt 0) xs.

(** [len(xs)]. *)
Definition py_len (xs : list pynum) : pynum := PyInt (Z.of_nat (length xs)).

(** *** [int(s)] on text *)

(** Code points below 256 that Python counts as white space. *)
Definition is_space (c : ascii) : bool :=
  let n := Z.of_nat (nat_of_ascii c) in
  ((9 <=? n) && (n <=? 13)) || ((28 <=? n) && (n <=? 32))
  || (n =? 133) || (n =? 160).

Definition digit_of (c : ascii) : option Z :=
  let n := Z.of_nat (nat_of_ascii c) in
  if (48 <=? n) && (n <=? 57) then Some (n - 48) else None.

(** Decimal digits, with single underscores allowed between two digits. *)
Fixpoint parse_digits (cs : list ascii) (acc : Z) (after_digit : bool)
  : option Z :=
  match cs with
  | [] => if after_digit then Some acc else None
  | c :: cs' =>
      match digit_of c with
      | Some d => parse_digits cs' (10 * acc + d) true
      | None =>
          if Ascii.eqb c "_"%char
          then (if after_digit then parse_digits cs' acc false else None)
          else None
      end
  end.

Fixpoint drop_spaces (cs : list ascii) : list ascii :=
  match cs with
  | c :: cs' => if is_space c then drop_spaces cs' else cs
  | [] => []
  end.

Definition strip (cs : list ascii) : list ascii :=
  rev (drop_spaces (rev (drop_spaces cs))).

(** [int(s)]: white space around, an optional sign, decimal digits;
    ValueError otherwise.  (The limit CPython 3.11 puts on the number of
    digits is not modelled.) *)
Definition py_int (s : string) : result Z :=
  let body := strip (list_ascii_of_string s) in
  let parsed :=
    match body with
    | c :: cs =>
        if Ascii.eqb c "-"%char then option_map Z.opp (parse_digits cs 0 false)
        else if Ascii.eqb c "+"%char then parse_digits cs 0 false
        else parse_digits body 0 false
    | [] => None
    end in
  match parsed with
  | Some z => Ok z
  | None => Raise ValueError
  end.

End Py.
Import Py.

(* ================================================================= *)
(** ** The outside world *)

(** What a call to [gas.read_all()] returns. *)
Record gas_reading : Type := {
  oxidising : pynum;
  reducing : pynum;
  nh3 : pynum
}.

(** What [pms5003.read()] returns: an object whose method [pm_ug_per_m3]
    gives the concentration for a particle size, or raises. *)
Record pm_values : Type := {
  pm_ug_per_m3 : pynum -> result pynum
}.

(** The calls the program issues, in the order it issues them. *)
Inductive event : Type :=
| GasReadAll
| ThermalZoneRead
| GetTemperature
| GetHumidity
| GetPressure
| PmsRead
| PmsReset
| LoggingInfo (msg : string)
| Sleep (secs : Z)
| GaugeSet (name : string) (value : float).

(** The collaborators.  Each answers as a function of the calls issued
    before: a value, or the exception it raises. *)
Record environment : Type := {
  gas_read_all : list event -> result gas_reading;
  bme280_get_temperature : list event -> result pynum;
  bme280_get_humidity : list event -> result pynum;
  bme280_get_pressure : list event -> result pynum;
  pms5003_read : list event -> result pm_values;
  pms5003_reset : list event -> result unit;
  (** [open(...)] and [f.read()] on /sys/class/thermal/thermal_zone0/temp *)
  thermal_zone_read : list event -> result string
}.

(** The eight local lists of [read_values] (lines 64-71). *)
Record window : Type := {
  temps : list pynum;
  humidities : list pynum;
  pressures : list pynum;
  pm10s : list pynum;
  pm2s : list pynum;
  gos : list pynum;
  grs : list pynum;
  gns : list pynum
}.

Record state : Type := {
  trace : list event;
  registry : gmap string float;
  locals : window
}.

(** The gauges of lines 32-39, by the name they are registered under. *)
Module Gauge.
Definition gt : string := "shop_temperature".
Definition gh : string := "shop_humidity".
Definition gp : string := "shop_pressure".
Definition gp2 : string := "shop_PM2".
Definition gp10 : string := "shop_PM10".
Definition go : string := "shop_oxidised".
Definition gr : string := "shop_reduced".
Definition gn : string := "shop_nh3".
End Gauge.

(** A new gauge holds 0.0. *)
Definition initial_registry : gmap string float :=
  <[Gauge.gt := 0%float]> (<[Gauge.gh := 0%float]> (<[Gauge.gp := 0%float]>
  (<[Gauge.gp2 := 0%float]> (<[Gauge.gp10 := 0%float]> (<[Gauge.go := 0%float]>
  (<[Gauge.gr := 0%float]> (<[Gauge.gn := 0%float]> ∅))))))).

Definition empty_window : window :=
  {| temps := []; humidities := []; pressures := []; pm10s := [];
     pm2s := []; gos := []; grs := []; gns := [] |}.

Definition initial_state : state :=
  {| trace := []; registry := initial_registry; locals := empty_window |}.

(* ================================================================= *)
(** ** The monad of the program *)

Definition M (A : Type) : Type := state -> result A * state.

Definition ret {A} (a : A) : M A := fun st => (Ok a, st).

Definition bind {A B} (c : M A) (k : A -> M B) : M B :=
  fun st =>
    match c st with
    | (Ok a, st') => k a st'
    | (Raise e, st') => (Raise e, st')
    end.

Notation "x <- c ;; k" := (bind c (fun x => k))
  (at level 100, c at next level, right associativity).
Notation "c ;; k" := (bind c (fun _ => k))
  (at level 100, right associativity).

(** A pure computation that can raise. *)
Definition lift {A} (r : result A) : M A := fun st => (r, st).

Definition emit (ev : event) (st : state) : state :=
  {| trace := trace st ++ [ev]; registry := registry st; locals := locals st |}.

(** An outside call: the answer depends on the history before the call. *)
Definition call {A} (ev : event) (oracle : list event -> result A) : M A :=
  fun st => (oracle (trace st), emit ev st).

(** A call that returns nothing and cannot raise. *)
Definition tell (ev : event) : M unit := fun st => (Ok tt, emit ev st).

Definition get_locals : M window := fun st => (Ok (locals st), st).

Definition set_locals (w : window) : M unit :=
  fun st => (Ok tt, {| trace := trace st; registry := registry st; locals := w |}).

(** [try: body except (classes): handler]; the effects of [body] up to the
    exception stay. *)
Definition try_except {A} (body : M A) (caught : exn -> bool) (handler : M A)
  : M A :=
  fun st =>
    match body st with
    | (Raise e, st') => if caught e then handler st' else (Raise e, st')
    | ok => ok
    end.

(** [for i in range(n): body], for a body that does not use [i]. *)
Fixpoint for_range (n : nat) (body : M unit) : M unit :=
  match n with
  | O => ret tt
  | S k => body ;; for_range k body
  end.

(** [xs.append(v)] on each of the local lists. *)
Definition append_temps (v : pynum) : M unit :=
  w <- get_locals ;;
  set_locals {| temps := temps w ++ [v]; humidities := humidities w;
                pressures := pressures w; pm10s := pm10s w; pm2s := pm2s w;
                gos := gos w; grs := grs w; gns := gns w |}.

Definition append_humidities (v : pynum) : M unit :=
  w <- get_locals ;;
  set_locals {| temps := temps w; humidities := humidities w ++ [v];
                pressures := pressures w; pm10s := pm10s w; pm2s := pm2s w;
                gos := gos w; grs := grs w; gns := gns w |}.

Definition append_pressures (v : pynum) : M unit :=
  w <- get_locals ;;
  set_locals {| temps := temps w; humidities := humidities w;
                pressures := pressures w ++ [v]; pm10s := pm10s w;
                pm2s := pm2s w; gos := gos w; grs := grs w; gns := gns w |}.

Definition append_pm10s (v : pynum) : M unit :=
  w <- get_locals ;;
  set_locals {| temps := temps w; humidities := humidities w;
                pressures := pressures w; pm10s := pm10s w ++ [v];
                pm2s := pm2s w; gos := gos w; grs := grs w; gns := gns w |}.

Definition append_pm2s (v : pynum) : M unit :=
  w <- get_locals ;;
  set_locals {| temps := temps w; humidities := humidities w;
                pressures := pressures w; pm10s := pm10s w;
                pm2s := pm2s w ++ [v]; gos := gos w; grs := grs w;
                gns := gns w |}.

Definition append_gos (v : pynum) : M unit :=
  w <- get_locals ;;
  set_locals {| temps := temps w; humidities := humidities w;
                pressures := pressures w; pm10s := pm10s w; pm2s := pm2s w;
                gos := gos w ++ [v]; grs := grs w; gns := gns w |}.

Definition append_grs (v : pynum) : M unit :=
  w <- get_locals ;;
  set_locals {| temps := temps w; humidities := humidities w;
                pressures := pressures w; pm10s := pm10s w; pm2s := pm2s w;
                gos := gos w; grs := grs w ++ [v]; gns := gns w |}.

Definition append_gns (v : pynum) : M unit :=
  w <- get_locals ;;
  set_locals {| temps := temps w; humidities := humidities w;
                pressures := pressures w; pm10s := pm10s w; pm2s := pm2s w;
                gos := gos w; grs := grs w; gns := gns w ++ [v] |}.

(** [g.set(value)]: the gauge keeps [float(value)]. *)
Definition gauge_set (name : string) (value : pynum) : M unit :=
  f <- lift (py_float value) ;;
  fun st => (Ok tt, {| trace := trace st ++ [GaugeSet name f];
                       registry := <[name := f]> (registry st);
                       locals := locals st |}).

(* ================================================================= *)
(** ** The program *)

(** Line 43 and line 55. *)
Definition temp_factor : pynum := PyFloat 4.5.
Definition humidity_factor : pynum := PyInt 20.

(** The two classes of the [except] clause of line 91. *)
Definition transient (e : exn) : bool :=
  match e with
  | ReadTimeoutError | ChecksumMismatchError => true
  | _ => false
  end.

Definition retry_message : string :=
  "Failed to read PMS5003. Reseting and retrying.".

Section Program.

Variable env : environment.

(** Lines 108-112. *)
Definition get_cpu_temperature : M pynum :=
  temp <- call ThermalZoneRead (thermal_zone_read env) ;;
  temp <- lift (py_int temp) ;;
  lift (py_truediv (PyInt temp) (PyFloat 1000)).

(** Lines 46-50. *)
Definition comp_temp (factor : pynum) : M pynum :=
  cpu_temp <- get_cpu_temperature ;;
  raw_temp <- call GetTemperature (bme280_get_temperature env) ;;
  comp_temp <- lift (let? d := py_sub cpu_temp raw_temp in
                     let? q := py_truediv d factor in
                     py_sub raw_temp q) ;;
  ret (py_round comp_temp 1).

(** Lines 58-60. *)
Definition comp_humidity (factor : pynum) : M pynum :=
  raw <- call GetHumidity (bme280_get_humidity env) ;;
  comp_humidity <- lift (py_add raw factor) ;;
  ret (py_round comp_humidity 1).

(** Lines 75-78. *)
Definition read_gas : M unit :=
  gas_data <- call GasReadAll (gas_read_all env) ;;
  v <- lift (py_truediv (oxidising gas_data) (PyInt 1000)) ;; append_gos v ;;
  v <- lift (py_truediv (reducing gas_data) (PyInt 1000)) ;; append_grs v ;;
  v <- lift (py_truediv (nh3 gas_data) (PyInt 1000)) ;; append_gns v.

(** Lines 81-83. *)
Definition read_climate : M unit :=
  v <- comp_temp temp_factor ;; append_temps v ;;
  v <- comp_humidity humidity_factor ;; append_humidities v ;;
  p <- call GetPressure (bme280_get_pressure env) ;;
  v <- lift (py_mul p (PyInt 100)) ;; append_pressures v.

(** Lines 87-89 and again lines 94-96. *)
Definition read_pm : M unit :=
  pm_values <- call PmsRead (pms5003_read env) ;;
  v <- lift (pm_ug_per_m3 pm_values (PyInt 10)) ;; append_pm10s v ;;
  v <- lift (pm_ug_per_m3 pm_values (PyFloat 2.5)) ;; append_pm2s v.

(** Lines 86-96. *)
Definition read_particles : M unit :=
  try_except read_pm transient
    (tell (LoggingInfo retry_message) ;;
     call PmsReset (pms5003_reset env) ;;
     read_pm).

(** One pass of the loop body, lines 74-98. *)
Definition sub_sample : M unit :=
  read_gas ;;
  read_climate ;;
  read_particles ;;
  tell (Sleep 1).

(** Lines 64-98: the lists are created empty and filled by five passes. *)
Definition sampling : M unit :=
  set_locals empty_window ;;
  for_range 5 sub_sample.

(** The beginning of a cycle: the lists are created and [j] passes of the
    loop are done. *)
Definition passes (j : nat) : M unit :=
  set_locals empty_window ;;
  for_range j sub_sample.

(** [sum(xs)/len(xs)]. *)
Definition average (xs : list pynum) : result pynum :=
  let? s := py_sum xs in py_truediv s (py_len xs).

(** Lines 101-105. *)
Definition publish : M unit :=
  w <- get_locals ;;
  v <- lift (average (temps w)) ;; gauge_set Gauge.gt v ;;
  v <- lift (average (humidities w)) ;; gauge_set Gauge.gh v ;;
  v <- lift (average (pressures w)) ;; gauge_set Gauge.gp v ;;
  v <- lift (average (pm2s w)) ;; gauge_set Gauge.gp2 v ;;
  v <- lift (average (pm10s w)) ;; gauge_set Gauge.gp10 v.

(** Lines 63-105. *)
Definition read_values : M unit :=
  sampling ;;
  publish.

(** Lines 121-122, [while True: read_values()], cut after [n] cycles. *)
Fixpoint cycles (n : nat) : M unit :=
  match n with
  | O => ret tt
  | S k => read_values ;; cycles k
  end.

End Program.

Arguments nearest_float : simpl never.
Arguments float_round : simpl never.
Arguments py_float : simpl never.
Arguments py_add : simpl never.
Arguments py_sub : simpl never.
Arguments py_mul : simpl never.
Arguments py_truediv : simpl never.
Arguments py_int : simpl never.

(* ================================================================= *)
(** ** Scripted environments

    Concrete collaborators, to run the program on: the answer to the n-th
    call of a kind is the n-th entry of a script. *)

Fixpoint count_calls (is_ev : event -> bool) (t : list event) : nat :=
  match t with
  | [] => O
  | ev :: t' => (if is_ev ev then 1 else 0) + count_calls is_ev t'
  end.

Definition scripted {A} (is_ev : event -> bool) (answers : list (result A))
  (otherwise : result A) : list event -> result A :=
  fun t => nth (count_calls is_ev t) answers otherwise.

Definition is_pms_read (ev : event) : bool :=
  match ev with PmsRead => true | _ => false end.
Definition is_pms_reset (ev : event) : bool :=
  match ev with PmsReset => true | _ => false end.
Definition is_thermal_zone_read (ev : event) : bool :=
  match ev with ThermalZoneRead => true | _ => false end.
Definition is_get_temperature (ev : event) : bool :=
  match ev with GetTemperature => true | _ => false end.
Definition is_gauge_set (ev : event) : bool :=
  match ev with GaugeSet _ _ => true | _ => false end.

(** [x == y] on numbers. *)
Definition py_eqb (x y : pynum) : bool :=
  match x, y with
  | PyInt a, PyInt b => (a =? b)%Z
  | _, _ =>
      match py_float x, py_float y with
      | Ok a, Ok b => (a =? b)%float
      | _, _ => false
      end
  end.

(** A frame of the particulate sensor: the three standard concentrations,
    looked up by particle size as the driver does; any other size raises
    ValueError. *)
Definition pms_data (pm1 pm2_5 pm10 : Z) : pm_values :=
  {| pm_ug_per_m3 := fun size =>
       if py_eqb size (PyFloat 1) then Ok (PyInt pm1)
       else if py_eqb size (PyFloat 2.5) then Ok (PyInt pm2_5)
       else if py_eqb size (PyInt 10) then Ok (PyInt pm10)
       else Raise ValueError |}.

Definition newline : string := String "010"%char EmptyString.

(** A healthy installation: raw temperatures 20, 21, 20, 22, 21 with the
    CPU at 30 degrees throughout. *)
Definition bench : environment :=
  {| gas_read_all := fun _ =>
       Ok {| oxidising := PyInt 1500; reducing := PyFloat 2500;
             nh3 := PyFloat 812.5 |};
     bme280_get_temperature :=
       scripted is_get_temperature
         [Ok (PyFloat 20); Ok (PyFloat 21); Ok (PyFloat 20); Ok (PyFloat 22);
          Ok (PyFloat 21)] (Ok (PyFloat 20));
     bme280_get_humidity := fun _ => Ok (PyFloat 45.04);
     bme280_get_pressure := fun _ => Ok (PyFloat 1013.25);
     pms5003_read := fun _ => Ok (pms_data 3 7 12);
     pms5003_reset := fun _ => Ok tt;
     thermal_zone_read := fun _ => Ok ("30000" ++ newline)%string |}.

(** The same installation with a particulate sensor that answers its reads
    by the script [reads]. *)
Definition with_pms (reads : list (result pm_values)) : environment :=
  {| gas_read_all := gas_read_all bench;
     bme280_get_temperature := bme280_get_temperature bench;
     bme280_get_humidity := bme280_get_humidity bench;
     bme280_get_pressure := bme280_get_pressure bench;
     pms5003_read := scripted is_pms_read reads (Ok (pms_data 3 7 12));
     pms5003_reset := pms5003_reset bench;
     thermal_zone_read := thermal_zone_read bench |}.

(** The same installation with a thermal-zone file that answers its reads
    by the script [reads]. *)
Definition with_thermal_zone (reads : list (result string)) : environment :=
  {| gas_read_all := gas_read_all bench;
     bme280_get_temperature := bme280_get_temperature bench;
     bme280_get_humidity := bme280_get_humidity bench;
     bme280_get_pressure := bme280_get_pressure bench;
     pms5003_read := pms5003_read bench;
     pms5003_reset := pms5003_reset bench;
     thermal_zone_read :=
       scripted is_thermal_zone_read reads (Ok ("30000" ++ newline)%string) |}.

(** Three faulty installations: a particulate sensor that times out once,
    one that fails its first two reads, and a thermal-zone file that cannot
    be read. *)
Definition pms_times_out_once : environment :=
  with_pms [Raise ReadTimeoutError; Ok (pms_data 1 5 9)].

Definition pms_fails_twice : environment :=
  with_pms [Raise ChecksumMismatchError; Raise ChecksumMismatchError].

Definition thermal_zone_unreadable : environment :=
  with_thermal_zone [Raise OSError].

(* ================================================================= *)
(** ** Vocabulary of the properties *)

(** *** States *)

(** The state after the calls [d] were issued. *)
Definition extend (d : list event) (st : state) : state :=
  {| trace := trace st ++ d; registry := registry st; locals := locals st |}.

(** The state with the local lists [w]. *)
Definition with_locals (w : window) (st : state) : state :=
  {| trace := trace st; registry := registry st; locals := w |}.

(** The lists after the appends of lines 76-78. *)
Definition snoc_gas (o r n : pynum) (w : window) : window :=
  {| temps := temps w; humidities := humidities w; pressures := pressures w;
     pm10s := pm10s w; pm2s := pm2s w;
     gos := gos w ++ [o]; grs := grs w ++ [r]; gns := gns w ++ [n] |}.

(** The lists after the appends of lines 81-83. *)
Definition snoc_climate (t h p : pynum) (w : window) : window :=
  {| temps := temps w ++ [t]; humidities := humidities w ++ [h];
     pressures := pressures w ++ [p];
     pm10s := pm10s w; pm2s := pm2s w;
     gos := gos w; grs := grs w; gns := gns w |}.

(** The lists after the appends of lines 88-89 (or 95-96). *)
Definition snoc_pm (a b : pynum) (w : window) : window :=
  {| temps := temps w; humidities := humidities w; pressures := pressures w;
     pm10s := pm10s w ++ [a]; pm2s := pm2s w ++ [b];
     gos := gos w; grs := grs w; gns := gns w |}.

(** The lists after the append of line 88 alone. *)
Definition snoc_pm10 (a : pynum) (w : window) : window :=
  {| temps := temps w; humidities := humidities w; pressures := pressures w;
     pm10s := pm10s w ++ [a]; pm2s := pm2s w;
     gos := gos w; grs := grs w; gns := gns w |}.

(** *** Relations between the state before and the state after *)

(** Whatever its outcome, [c] takes a state to one related to it by [R]. *)
Definition preserves {A} (R : state -> state -> Prop) (c : M A) : Prop :=
  forall st r st', c st = (r, st') -> R st st'.

(** Every [set] among the calls [d] is on a gauge of [P]. *)
Definition gauge_events (P : string -> Prop) (d : list event) : Prop :=
  Forall (fun ev => match ev with GaugeSet name _ => P name | _ => True end) d.

(** From [st] to [st'] calls were only added, gauges were set only in [P],
    and every gauge outside [P] holds what it held. *)
Definition touches (P : string -> Prop) (st st' : state) : Prop :=
  (forall name, ~ P name -> registry st' !! name = registry st !! name) /\
  exists d, trace st' = trace st ++ d /\ gauge_events P d.

Definition no_gauge : string -> Prop := fun _ => False.

(** The gauges of lines 101-105. *)
Definition published (name : string) : Prop :=
  In name [Gauge.gt; Gauge.gh; Gauge.gp; Gauge.gp2; Gauge.gp10].

(** The six lists that the particulate block leaves as they are. *)
Definition same_readings (st st' : state) : Prop :=
  temps (locals st') = temps (locals st) /\
  humidities (locals st') = humidities (locals st) /\
  pressures (locals st') = pressures (locals st) /\
  gos (locals st') = gos (locals st) /\
  grs (locals st') = grs (locals st) /\
  gns (locals st') = gns (locals st).

(** *** The window *)

(** The result of a [round(x, 1)]. *)
Definition one_decimal (v : pynum) : Prop := exists x, v = py_round x 1.

(** Each of the eight lists holds [n] values. *)
Definition window_sizes (w : window) (n : nat) : Prop :=
  length (temps w) = n /\ length (humidities w) = n /\
  length (pressures w) = n /\ length (pm10s w) = n /\
  length (pm2s w) = n /\ length (gos w) = n /\
  length (grs w) = n /\ length (gns w) = n.

(** The temperatures and the humidities are results of [round(x, 1)]. *)
Definition rounded_window (w : window) : Prop :=
  Forall one_decimal (temps w) /\ Forall one_decimal (humidities w).

(** *** The contract of the particulate driver *)

(** The lookups on a frame that a read returned do not raise the two
    errors of the reads: [pm_ug_per_m3] looks a value up in the frame and
    raises nothing but ValueError, for a size it does not know. *)
Definition accessors_never_transient (env : environment) : Prop :=
  forall t pmv size e,
    pms5003_read env t = Ok pmv ->
    pm_ug_per_m3 pmv size = Raise e ->
    transient e = false.

(** *** The calls of a pass *)

Definition is_gas_read (ev : event) : bool :=
  match ev with GasReadAll => true | _ => false end.
Definition is_get_humidity (ev : event) : bool :=
  match ev with GetHumidity => true | _ => false end.
Definition is_get_pressure (ev : event) : bool :=
  match ev with GetPressure => true | _ => false end.
Definition is_sleep (ev : event) : bool :=
  match ev with Sleep 1 => true | _ => false end.

(** The calls of the block of lines 86-96 when it completes: one read, or
    read, log, reset, read. *)
Definition particle_calls (retried : bool) : list event :=
  if retried then [PmsRead; LoggingInfo retry_message; PmsReset; PmsRead]
  else [PmsRead].

(** The calls of a pass of the loop that completes. *)
Definition pass_calls (retried : bool) : list event :=
  [GasReadAll; ThermalZoneRead; GetTemperature; GetHumidity; GetPressure]
  ++ particle_calls retried ++ [Sleep 1].

(** The gauges of lines 102-105. *)
Definition published_after_temperature (name : string) : Prop :=
  In name [Gauge.gh; Gauge.gp; Gauge.gp2; Gauge.gp10].

(** *** More faulty installations *)

(** A particulate sensor whose serial line times out: an error that is
    neither a read timeout nor a checksum mismatch. *)
Definition pms_serial_timeout : environment :=
  with_pms [Raise (OtherError "SerialTimeoutError")].

(** A particulate sensor that times out once and whose reset fails. *)
Definition pms_reset_fails : environment :=
  {| gas_read_all := gas_read_all bench;
     bme280_get_temperature := bme280_get_temperature bench;
     bme280_get_humidity := bme280_get_humidity bench;
     bme280_get_pressure := bme280_get_pressure bench;
     pms5003_read := scripted is_pms_read [Raise ReadTimeoutError]
                       (Ok (pms_data 3 7 12));
     pms5003_reset := fun _ => Raise OSError;
     thermal_zone_read := thermal_zone_read bench |}.

(** A frame that gives its PM10 value and raises a read timeout on any
    other lookup. *)
Definition broken_frame (pm10 : Z) : pm_values :=
  {| pm_ug_per_m3 := fun size =>
       if py_eqb size (PyInt 10) then Ok (PyInt pm10)
       else Raise ReadTimeoutError |}.

(** A particulate driver whose first frame is broken. *)
Definition pms_broken_frame : environment :=
  with_pms [Ok (broken_frame 4); Ok (pms_data 1 5 9)].


(** A particulate sensor that works for one cycle and then fails twice. *)
Definition pms_fails_in_second_cycle : environment :=
  with_pms [Ok (pms_data 3 7 12); Ok (pms_data 3 7 12); Ok (pms_data 3 7 12);
            Ok (pms_data 3 7 12); Ok (pms_data 3 7 12);
            Raise ReadTimeoutError; Raise ChecksumMismatchError].

(* ================================================================= *)
(** ** Running the monad: inversion lemmas *)

Lemma bind_Ok_inv {A B} (c : M A) (k : A -> M B) st b st' :
  bind c k st = (Ok b, st') ->
  exists a st1, c st = (Ok a, st1) /\ k a st1 = (Ok b, st').
Proof.
  unfold bind. destruct (c st) as [[a|e] st1] eqn:Hc; intros H.
  - exists a, st1. split; [reflexivity | exact H].
  - discriminate H.
Qed.

Lemma bind_Raise_inv {A B} (c : M A) (k : A -> M B) st e st' :
  bind c k st = (Raise e, st') ->
  c st = (Raise e, st') \/
  exists a st1, c st = (Ok a, st1) /\ k a st1 = (Raise e, st').
Proof.
  unfold bind. destruct (c st) as [[a|e1] st1] eqn:Hc; intros H.
  - right. exists a, st1. split; [reflexivity | exact H].
  - left. injection H as -> ->. reflexivity.
Qed.

Lemma bind_Ok {A B} (c : M A) (k : A -> M B) st a st1 :
  c st = (Ok a, st1) -> bind c k st = k a st1.
Proof. intros H. unfold bind. rewrite H. reflexivity. Qed.

Lemma bind_Raise {A B} (c : M A) (k : A -> M B) st e st1 :
  c st = (Raise e, st1) -> bind c k st = (Raise e, st1).
Proof. intros H. unfold bind. rewrite H. reflexivity. Qed.

Lemma bind_assoc {A B C} (c : M A) (k : A -> M B) (h : B -> M C) st :
  bind (bind c k) h st = bind c (fun a => bind (k a) h) st.
Proof.
  unfold bind. destruct (c st) as [[a|e] st1]; reflexivity.
Qed.

(** The body of a loop that raises after [j] good passes ends the loop. *)
Lemma for_range_split (j k : nat) (body : M unit) st :
  for_range (j + k) body st = (for_range j body ;; for_range k body) st.
Proof.
  revert st. induction j as [|j IH]; intros st; simpl.
  - reflexivity.
  - rewrite bind_assoc.
    destruct (body st) as [[[]|e] st1] eqn:E.
    + rewrite !(bind_Ok _ _ _ _ _ E). apply IH.
    + rewrite !(bind_Raise _ _ _ _ _ E). reflexivity.
Qed.

(* ================================================================= *)
(** ** Relations every step of a computation maintains *)

Section Preserves.

Variable R : state -> state -> Prop.
Hypothesis R_refl : forall st, R st st.
Hypothesis R_trans : forall st1 st2 st3, R st1 st2 -> R st2 st3 -> R st1 st3.

Lemma preserves_ret {A} (a : A) : preserves R (ret a).
Proof using R_refl. intros st r st' H. injection H as _ <-. apply R_refl. Qed.

Lemma preserves_lift {A} (r : result A) : preserves R (lift r).
Proof using R_refl. intros st x st' H. injection H as _ <-. apply R_refl. Qed.

Lemma preserves_bind {A B} (c : M A) (k : A -> M B) :
  preserves R c -> (forall a, preserves R (k a)) -> preserves R (bind c k).
Proof using R_trans.
  intros Hc Hk st r st'. unfold bind.
  destruct (c st) as [[a|e] st1] eqn:E; intros H.
  - eapply R_trans; [eapply Hc, E | eapply Hk, H].
  - injection H as _ <-. eapply Hc, E.
Qed.

Lemma preserves_try_except {A} (body handler : M A) caught :
  preserves R body -> preserves R handler ->
  preserves R (try_except body caught handler).
Proof using R_trans.
  intros Hb Hh st r st'. unfold try_except.
  destruct (body st) as [[a|e] st1] eqn:E; intros H.
  - injection H as _ <-. eapply Hb, E.
  - destruct (caught e).
    + eapply R_trans; [eapply Hb, E | eapply Hh, H].
    + injection H as _ <-. eapply Hb, E.
Qed.

Lemma preserves_for_range (n : nat) (body : M unit) :
  preserves R body -> preserves R (for_range n body).
Proof using R_refl R_trans.
  intros Hb. induction n as [|n IH]; simpl.
  - apply preserves_ret.
  - apply preserves_bind; [exact Hb | intros _; exact IH].
Qed.

End Preserves.

(** *** The gauges a computation may set *)

Lemma touches_refl P st : touches P st st.
Proof.
  split; [reflexivity|]. exists []. split; [symmetry; apply app_nil_r|].
  constructor.
Qed.

Lemma touches_trans P st1 st2 st3 :
  touches P st1 st2 -> touches P st2 st3 -> touches P st1 st3.
Proof.
  intros [Hr1 (d1 & Ht1 & Hd1)] [Hr2 (d2 & Ht2 & Hd2)]. split.
  - intros name Hn. rewrite (Hr2 name Hn). apply Hr1, Hn.
  - exists (d1 ++ d2). split.
    + rewrite Ht2, Ht1. symmetry. apply app_assoc.
    + apply Forall_app. split; assumption.
Qed.

Lemma touches_mono (P Q : string -> Prop) st st' :
  (forall name, P name -> Q name) -> touches P st st' -> touches Q st st'.
Proof.
  intros HPQ [Hr (d & Ht & Hd)]. split.
  - intros name Hn. apply Hr. intros HP. apply Hn, HPQ, HP.
  - exists d. split; [exact Ht|].
    eapply Forall_impl; [exact Hd|]. intros [] H; try exact I.
    apply HPQ, H.
Qed.

Lemma touches_emit P ev st :
  is_gauge_set ev = false -> touches P st (emit ev st).
Proof.
  intros Hev. split; [reflexivity|]. exists [ev]. split; [reflexivity|].
  constructor; [|constructor]. destruct ev; try exact I. discriminate Hev.
Qed.

Lemma touches_call P {A} ev (oracle : list event -> result A) :
  is_gauge_set ev = false -> preserves (touches P) (call ev oracle).
Proof. intros Hev st r st' H. injection H as _ <-. apply touches_emit, Hev. Qed.

Lemma touches_tell P ev :
  is_gauge_set ev = false -> preserves (touches P) (tell ev).
Proof. intros Hev st r st' H. injection H as _ <-. apply touches_emit, Hev. Qed.

Lemma touches_get_locals P : preserves (touches P) get_locals.
Proof. intros st r st' H. injection H as _ <-. apply touches_refl. Qed.

Lemma touches_set_locals P w : preserves (touches P) (set_locals w).
Proof.
  intros st r st' H. injection H as _ <-. split; [reflexivity|].
  exists []. split; [symmetry; apply app_nil_r | constructor].
Qed.

Lemma touches_gauge_set (P : string -> Prop) name v :
  P name -> preserves (touches P) (gauge_set name v).
Proof.
  intros HP st r st'. unfold gauge_set, bind, lift.
  destruct (py_float v) as [f|e]; intros H; injection H as _ <-.
  - split.
    + intros n Hn. simpl. apply lookup_insert_ne. intros ->. apply Hn, HP.
    + exists [GaugeSet name f]. split; [reflexivity|].
      constructor; [exact HP | constructor].
  - apply touches_refl.
Qed.

(** Closes [preserves (touches P) c] for a computation built from the
    combinators and the calls above. *)
Ltac touch :=
  repeat first
    [ apply (preserves_ret _ (touches_refl _))
    | apply (preserves_lift _ (touches_refl _))
    | apply touches_get_locals
    | apply touches_set_locals
    | apply touches_call; reflexivity
    | apply touches_tell; reflexivity
    | apply touches_gauge_set; unfold published; simpl; tauto
    | apply (preserves_for_range _ (touches_refl _) (touches_trans _))
    | apply (preserves_try_except _ (touches_trans _))
    | apply (preserves_bind _ (touches_trans _)); [|intros ?] ].

Section ProgramFrames.

Variable env : environment.

Lemma sub_sample_touches P : preserves (touches P) (sub_sample env).
Proof.
  unfold sub_sample, read_gas, read_climate, read_particles, read_pm,
    comp_temp, comp_humidity, get_cpu_temperature, append_gos, append_grs,
    append_gns, append_temps, append_humidities, append_pressures,
    append_pm10s, append_pm2s.
  touch.
Qed.

Lemma sampling_touches P : preserves (touches P) (sampling env).
Proof.
  unfold sampling. touch.
Qed.

Lemma publish_touches : preserves (touches published) publish.
Proof.
  unfold publish. touch.
Qed.

Lemma read_values_touches : preserves (touches published) (read_values env).
Proof.
  unfold read_values.
  apply (preserves_bind _ (touches_trans _));
    [apply sampling_touches | intros _; apply publish_touches].
Qed.

Lemma cycles_touches n : preserves (touches published) (cycles env n).
Proof.
  induction n as [|n IH]; simpl.
  - apply (preserves_ret _ (touches_refl _)).
  - apply (preserves_bind _ (touches_trans _));
      [apply read_values_touches | intros _; exact IH].
Qed.

End ProgramFrames.

(* ================================================================= *)
(** ** The gauges written by a cycle *)

Lemma gauge_events_In P d name v :
  gauge_events P d -> In (GaugeSet name v) d -> P name.
Proof.
  intros Hd Hin. unfold gauge_events in Hd.
  rewrite List.Forall_forall in Hd. exact (Hd _ Hin).
Qed.

Lemma touches_no_gauge_registry st st' :
  touches no_gauge st st' -> registry st' = registry st.
Proof.
  intros [Hr _]. apply map_eq. intros name. apply Hr. intros [].
Qed.

Lemma not_published_gas :
  ~ published Gauge.go /\ ~ published Gauge.gr /\ ~ published Gauge.gn.
Proof.
  unfold published. simpl. repeat split; intros H;
    repeat (destruct H as [H|H]; [discriminate H|]); exact H.
Qed.

(** Any number of cycles leaves the three gas gauges alone. *)
Lemma cycles_frame env n st :
  let st' := snd (cycles env n st) in
  registry st' !! Gauge.go = registry st !! Gauge.go /\
  registry st' !! Gauge.gr = registry st !! Gauge.gr /\
  registry st' !! Gauge.gn = registry st !! Gauge.gn /\
  exists d, trace st' = trace st ++ d /\
    forall name v, In (GaugeSet name v) d -> published name.
Proof.
  intros st'. destruct (cycles_touches env n st (fst (cycles env n st)) st')
    as [Hr (d & Ht & Hd)]; [apply surjective_pairing|].
  destruct not_published_gas as (Ho & Hr' & Hn).
  repeat split; try (apply Hr; assumption).
  exists d. split; [exact Ht|]. intros name v Hin.
  exact (gauge_events_In published d name v Hd Hin).
Qed.

(** C6: whatever the devices answer and however the cycle ends,
    [read_values] sets no gauge other than shop_temperature, shop_humidity,
    shop_pressure, shop_PM2 and shop_PM10: the calls it adds to the history
    contain no [set] on another gauge, and shop_oxidised, shop_reduced and
    shop_nh3 hold afterwards what they held before. *)
Theorem read_values_sets_only_published env st :
  let st' := snd (read_values env st) in
  registry st' !! Gauge.go = registry st !! Gauge.go /\
  registry st' !! Gauge.gr = registry st !! Gauge.gr /\
  registry st' !! Gauge.gn = registry st !! Gauge.gn /\
  exists d, trace st' = trace st ++ d /\
    forall name v, In (GaugeSet name v) d ->
      In name [Gauge.gt; Gauge.gh; Gauge.gp; Gauge.gp2; Gauge.gp10].
Proof.
  intros st'.
  destruct (read_values_touches env st (fst (read_values env st)) st')
    as [Hr (d & Ht & Hd)]; [apply surjective_pairing|].
  destruct not_published_gas as (Ho & Hr' & Hn).
  repeat split; try (apply Hr; assumption).
  exists d. split; [exact Ht|]. intros name v Hin.
  exact (gauge_events_In published d name v Hd Hin).
Qed.

(** C10: when the sampling part of a cycle (lines 64-98) ends with an
    exception, [read_values] ends with that exception in the same state:
    the registry is the one the cycle started with and no [set] was issued.
    The five writes of lines 101-105 come after the loop only. *)
Theorem sampling_failure_sets_no_gauge env st e st1 :
  sampling env st = (Raise e, st1) ->
  read_values env st = (Raise e, st1) /\
  registry st1 = registry st /\
  exists d, trace st1 = trace st ++ d /\
    forall name v, ~ In (GaugeSet name v) d.
Proof.
  intros Hs. split; [|split].
  - unfold read_values. apply bind_Raise, Hs.
  - apply touches_no_gauge_registry. eapply sampling_touches, Hs.
  - destruct (sampling_touches env no_gauge _ _ _ Hs) as [_ (d & Ht & Hd)].
    exists d. split; [exact Ht|]. intros name v Hin.
    exact (gauge_events_In _ _ _ _ Hd Hin).
Qed.

Lemma sampling_failure_sets_no_gauge_witness :
  read_values pms_fails_twice initial_state =
    (Raise ChecksumMismatchError,
     snd (sampling pms_fails_twice initial_state)) /\
  registry (snd (sampling pms_fails_twice initial_state)) = initial_registry.
Proof.
  destruct (sampling_failure_sets_no_gauge pms_fails_twice initial_state
              ChecksumMismatchError
              (snd (sampling pms_fails_twice initial_state)))
    as (H1 & H2 & _).
  - vm_compute. reflexivity.
  - split; [exact H1 | exact H2].
Defined.

(* ================================================================= *)
(** ** What one pass of the loop does *)

Lemma extend_extend d1 d2 st :
  extend d2 (extend d1 st) = extend (d1 ++ d2) st.
Proof. unfold extend. simpl. rewrite <- app_assoc. reflexivity. Qed.

Lemma emit_extend ev d st : emit ev (extend d st) = extend (d ++ [ev]) st.
Proof. unfold emit, extend. simpl. rewrite <- app_assoc. reflexivity. Qed.

Lemma call_Ok_inv {A} ev (oracle : list event -> result A) st a st1 :
  call ev oracle st = (Ok a, st1) ->
  oracle (trace st) = Ok a /\ st1 = emit ev st.
Proof. unfold call. intros H. injection H as H1 H2. auto. Qed.

Lemma call_Raise_inv {A} ev (oracle : list event -> result A) st e st1 :
  call ev oracle st = (Raise e, st1) ->
  oracle (trace st) = Raise e /\ st1 = emit ev st.
Proof. unfold call. intros H. injection H as H1 H2. auto. Qed.

Lemma lift_Ok_inv {A} (r : result A) st a st1 :
  lift r st = (Ok a, st1) -> r = Ok a /\ st1 = st.
Proof. unfold lift. intros H. injection H as H1 H2. auto. Qed.

Lemma lift_Raise_inv {A} (r : result A) st e st1 :
  lift r st = (Raise e, st1) -> r = Raise e /\ st1 = st.
Proof. unfold lift. intros H. injection H as H1 H2. auto. Qed.

Lemma rbind_Ok_inv {A B} (r : result A) (k : A -> result B) b :
  rbind r k = Ok b -> exists a, r = Ok a /\ k a = Ok b.
Proof. destruct r as [a|e]; simpl; [eauto | discriminate]. Qed.

(** Splits a successful run [H] of a sequence into the runs of its steps. *)
Ltac run_Ok H :=
  repeat match type of H with
  | bind _ _ _ = (Ok _, _) =>
      let a := fresh "a" in let s := fresh "s" in
      let H1 := fresh "Hstep" in
      apply bind_Ok_inv in H; destruct H as (a & s & H1 & H);
      first
        [ apply call_Ok_inv in H1; destruct H1 as [H1 ->]
        | apply lift_Ok_inv in H1; destruct H1 as [H1 ->]
        | idtac ]
  end.

Section Passes.

Variable env : environment.

Lemma read_gas_Ok_inv st st1 :
  read_gas env st = (Ok tt, st1) ->
  exists g o r n,
    gas_read_all env (trace st) = Ok g /\
    py_truediv (oxidising g) (PyInt 1000) = Ok o /\
    py_truediv (reducing g) (PyInt 1000) = Ok r /\
    py_truediv (nh3 g) (PyInt 1000) = Ok n /\
    st1 = with_locals (snoc_gas o r n (locals st)) (emit GasReadAll st).
Proof.
  unfold read_gas. intros H. run_Ok H.
  injection Hstep1 as <-. injection Hstep3 as <-. injection H as <-.
  exists a, a0, a2, a4. repeat split; assumption.
Qed.

Lemma get_cpu_temperature_Ok_inv st cpu st1 :
  get_cpu_temperature env st = (Ok cpu, st1) ->
  exists text z,
    thermal_zone_read env (trace st) = Ok text /\
    py_int text = Ok z /\
    py_truediv (PyInt z) (PyFloat 1000) = Ok cpu /\
    st1 = emit ThermalZoneRead st.
Proof.
  unfold get_cpu_temperature. intros H. run_Ok H.
  apply lift_Ok_inv in H. destruct H as [H ->].
  exists a, a0. repeat split; assumption.
Qed.

Lemma comp_temp_Ok_inv factor st v st1 :
  comp_temp env factor st = (Ok v, st1) ->
  (exists x, v = py_round x 1) /\
  st1 = extend [ThermalZoneRead; GetTemperature] st.
Proof.
  unfold comp_temp. intros H. run_Ok H.
  apply get_cpu_temperature_Ok_inv in Hstep.
  destruct Hstep as (text & z & _ & _ & _ & ->).
  injection H as <- <-. split; [eexists; reflexivity|].
  unfold emit, extend. simpl. rewrite <- app_assoc. reflexivity.
Qed.

Lemma comp_humidity_Ok_inv factor st v st1 :
  comp_humidity env factor st = (Ok v, st1) ->
  exists raw x,
    bme280_get_humidity env (trace st) = Ok raw /\
    py_add raw factor = Ok x /\
    v = py_round x 1 /\
    st1 = emit GetHumidity st.
Proof.
  unfold comp_humidity. intros H. run_Ok H.
  injection H as <- <-. exists a, a0. repeat split; assumption.
Qed.

Lemma read_climate_Ok_inv st st1 :
  read_climate env st = (Ok tt, st1) ->
  exists t h p v,
    (exists x, t = py_round x 1) /\
    (exists x, h = py_round x 1) /\
    bme280_get_pressure env
      (trace st ++ [ThermalZoneRead; GetTemperature; GetHumidity]) = Ok p /\
    py_mul p (PyInt 100) = Ok v /\
    st1 = with_locals (snoc_climate t h v (locals st))
            (extend [ThermalZoneRead; GetTemperature; GetHumidity;
                     GetPressure] st).
Proof.
  unfold read_climate. intros H. run_Ok H.
  apply comp_temp_Ok_inv in Hstep. destruct Hstep as [Ht ->].
  injection Hstep0 as <-.
  apply comp_humidity_Ok_inv in Hstep1.
  destruct Hstep1 as (raw & x & _ & _ & Hh & ->).
  injection Hstep2 as <-. injection H as <-.
  simpl in Hstep3. rewrite <- app_assoc in Hstep3. simpl in Hstep3.
  exists a, a1, a3, a4. split; [exact Ht|]. split; [eexists; exact Hh|].
  split; [exact Hstep3|]. split; [exact Hstep4|].
  unfold with_locals, snoc_climate, extend, emit. simpl.
  rewrite <- !app_assoc. reflexivity.
Qed.

Lemma read_pm_Ok st pmv a b :
  pms5003_read env (trace st) = Ok pmv ->
  pm_ug_per_m3 pmv (PyInt 10) = Ok a ->
  pm_ug_per_m3 pmv (PyFloat 2.5) = Ok b ->
  read_pm env st =
    (Ok tt, with_locals (snoc_pm a b (locals st)) (emit PmsRead st)).
Proof.
  intros Hr Ha Hb. unfold read_pm, bind, call. rewrite Hr. simpl.
  rewrite Ha. simpl. rewrite Hb. reflexivity.
Qed.

Lemma read_pm_read_Raise st e :
  pms5003_read env (trace st) = Raise e ->
  read_pm env st = (Raise e, emit PmsRead st).
Proof. intros Hr. unfold read_pm, bind, call. rewrite Hr. reflexivity. Qed.

Lemma read_pm_Ok_inv st st1 :
  read_pm env st = (Ok tt, st1) ->
  exists pmv a b,
    pms5003_read env (trace st) = Ok pmv /\
    pm_ug_per_m3 pmv (PyInt 10) = Ok a /\
    pm_ug_per_m3 pmv (PyFloat 2.5) = Ok b /\
    st1 = with_locals (snoc_pm a b (locals st)) (emit PmsRead st).
Proof.
  unfold read_pm. intros H. run_Ok H.
  injection Hstep1 as <-. injection H as <-.
  exists a, a0, a2. repeat split; assumption.
Qed.

(** How [read_pm] can raise: in the read, or in one of the two lookups;
    in the last case the PM10 value was already appended. *)
Lemma read_pm_Raise_inv st e st1 :
  read_pm env st = (Raise e, st1) ->
  (pms5003_read env (trace st) = Raise e /\ st1 = emit PmsRead st) \/
  (exists pmv, pms5003_read env (trace st) = Ok pmv /\
     pm_ug_per_m3 pmv (PyInt 10) = Raise e /\ st1 = emit PmsRead st) \/
  (exists pmv a, pms5003_read env (trace st) = Ok pmv /\
     pm_ug_per_m3 pmv (PyInt 10) = Ok a /\
     pm_ug_per_m3 pmv (PyFloat 2.5) = Raise e /\
     st1 = with_locals (snoc_pm10 a (locals st)) (emit PmsRead st)).
Proof.
  unfold read_pm, bind, call, lift.
  destruct (pms5003_read env (trace st)) as [pmv|e0] eqn:Hr; simpl.
  - destruct (pm_ug_per_m3 pmv (PyInt 10)) as [a|e1] eqn:Ha; simpl.
    + destruct (pm_ug_per_m3 pmv (PyFloat 2.5)) as [b|e2] eqn:Hb; simpl.
      * discriminate.
      * intros H. injection H as -> <-. right. right. exists pmv, a.
        repeat split; assumption.
    + intros H. injection H as -> <-. right. left. exists pmv.
      repeat split; assumption.
  - intros H. injection H as -> <-. left. split; reflexivity.
Qed.

End Passes.

(* ================================================================= *)
(** ** Exceptions leave the cycle *)

Section Propagation.

Variable env : environment.

(** An exception raised in pass [j + 1] of the loop ends [sampling]. *)
Lemma sampling_raises_in_pass (j : nat) st0 st e st' :
  (j < 5)%nat ->
  passes env j st0 = (Ok tt, st) ->
  sub_sample env st = (Raise e, st') ->
  sampling env st0 = (Raise e, st').
Proof.
  intros Hj Hp Hb. unfold passes in Hp. unfold sampling.
  apply bind_Ok_inv in Hp. destruct Hp as ([] & s1 & H1 & H2).
  rewrite (bind_Ok _ _ _ _ _ H1).
  replace 5%nat with (j + S (4 - j))%nat by lia.
  rewrite for_range_split, (bind_Ok _ _ _ _ _ H2). simpl.
  apply bind_Raise, Hb.
Qed.

Lemma read_values_raises_in_pass (j : nat) st0 st e st' :
  (j < 5)%nat ->
  passes env j st0 = (Ok tt, st) ->
  sub_sample env st = (Raise e, st') ->
  read_values env st0 = (Raise e, st').
Proof.
  intros Hj Hp Hb. unfold read_values.
  apply bind_Raise. eapply sampling_raises_in_pass; eassumption.
Qed.

(** An exception of the first cycle ends any number of cycles. *)
Lemma cycles_raise n st0 e st' :
  read_values env st0 = (Raise e, st') ->
  cycles env (S n) st0 = (Raise e, st').
Proof. intros H. simpl. apply bind_Raise, H. Qed.

End Propagation.

(* ================================================================= *)
(** ** The particulate read and its single retry *)

(** C2: when the first read of the particulate sensor raises a read
    timeout or a checksum mismatch and the read after the reset succeeds,
    the block of lines 86-96 issues the calls read, log, reset, read (one
    reset exactly) and appends to [pm10s] and [pm2s] the PM10 and PM2.5
    values of the second read. *)
Theorem read_particles_retry env st e1 pmv a b :
  pms5003_read env (trace st) = Raise e1 ->
  transient e1 = true ->
  pms5003_reset env (trace st ++ [PmsRead; LoggingInfo retry_message])
    = Ok tt ->
  pms5003_read env
    (trace st ++ [PmsRead; LoggingInfo retry_message; PmsReset]) = Ok pmv ->
  pm_ug_per_m3 pmv (PyInt 10) = Ok a ->
  pm_ug_per_m3 pmv (PyFloat 2.5) = Ok b ->
  exists st',
    read_particles env st = (Ok tt, st') /\
    trace st' =
      trace st ++ [PmsRead; LoggingInfo retry_message; PmsReset; PmsRead] /\
    count_calls is_pms_reset
      [PmsRead; LoggingInfo retry_message; PmsReset; PmsRead] = 1%nat /\
    pm10s (locals st') = pm10s (locals st) ++ [a] /\
    pm2s (locals st') = pm2s (locals st) ++ [b].
Proof.
  intros H1 Ht Hreset H2 Ha Hb. eexists. split.
  - unfold read_particles, try_except.
    rewrite (read_pm_read_Raise env st e1 H1), Ht.
    unfold bind at 1. unfold tell at 1.
    unfold bind at 1. unfold call at 1. simpl.
    rewrite <- app_assoc. simpl. rewrite Hreset.
    apply (read_pm_Ok env _ pmv a b);
      simpl; rewrite <- ?app_assoc; simpl; assumption.
  - simpl. rewrite <- !app_assoc. simpl. repeat split; reflexivity.
Qed.

Lemma read_particles_retry_witness :
  exists st',
    read_particles pms_times_out_once initial_state = (Ok tt, st') /\
    trace st' = [PmsRead; LoggingInfo retry_message; PmsReset; PmsRead] /\
    pm10s (locals st') = [PyInt 9] /\
    pm2s (locals st') = [PyInt 5].
Proof.
  destruct (read_particles_retry pms_times_out_once initial_state
              ReadTimeoutError (pms_data 1 5 9) (PyInt 9) (PyInt 5))
    as (st' & Hrun & Htrace & _ & H10 & H2); try reflexivity.
  exists st'. repeat split; assumption.
Defined.

(** C3: when the first read raises a read timeout or a checksum mismatch
    and the read after the reset raises again (whatever it raises, so also
    one of these two), the second exception leaves the block of lines
    86-96, [read_values] ends with it, and the calls issued are read, log,
    reset, read: one reset, not two. *)
Theorem read_particles_second_failure env (j : nat) st0 st e1 e2 :
  (j < 5)%nat ->
  (passes env j ;; read_gas env ;; read_climate env) st0 = (Ok tt, st) ->
  pms5003_read env (trace st) = Raise e1 ->
  transient e1 = true ->
  pms5003_reset env (trace st ++ [PmsRead; LoggingInfo retry_message])
    = Ok tt ->
  pms5003_read env
    (trace st ++ [PmsRead; LoggingInfo retry_message; PmsReset]) = Raise e2 ->
  let st' :=
    extend [PmsRead; LoggingInfo retry_message; PmsReset; PmsRead] st in
  read_particles env st = (Raise e2, st') /\
  read_values env st0 = (Raise e2, st') /\
  count_calls is_pms_reset
    [PmsRead; LoggingInfo retry_message; PmsReset; PmsRead] = 1%nat.
Proof.
  intros Hj Hreach H1 Ht Hreset H2 st'.
  assert (Hp : read_particles env st = (Raise e2, st')).
  { unfold read_particles, try_except.
    rewrite (read_pm_read_Raise env st e1 H1), Ht.
    unfold bind at 1. unfold tell at 1.
    unfold bind at 1. unfold call at 1. simpl.
    rewrite <- app_assoc. simpl. rewrite Hreset.
    rewrite (read_pm_read_Raise env _ e2)
      by (simpl; rewrite <- ?app_assoc; simpl; exact H2).
    unfold st', emit, extend. simpl. rewrite <- !app_assoc. reflexivity. }
  split; [exact Hp|]. split; [|reflexivity].
  apply bind_Ok_inv in Hreach. destruct Hreach as ([] & s1 & Hpass & Hreach).
  apply bind_Ok_inv in Hreach. destruct Hreach as ([] & s2 & Hgas & Hclimate).
  apply (read_values_raises_in_pass env j st0 s1); [exact Hj | exact Hpass|].
  unfold sub_sample.
  rewrite (bind_Ok _ _ _ _ _ Hgas), (bind_Ok _ _ _ _ _ Hclimate).
  apply bind_Raise, Hp.
Qed.

Lemma read_particles_second_failure_witness :
  read_values pms_fails_twice initial_state =
    (Raise ChecksumMismatchError,
     extend [PmsRead; LoggingInfo retry_message; PmsReset; PmsRead]
       (snd ((passes pms_fails_twice 0 ;; read_gas pms_fails_twice ;;
              read_climate pms_fails_twice) initial_state))).
Proof.
  refine (proj1 (proj2 (read_particles_second_failure pms_fails_twice 0
            initial_state _ ChecksumMismatchError ChecksumMismatchError
            _ _ _ _ _ _))).
  - lia.
  - vm_compute. reflexivity.
  - reflexivity.
  - reflexivity.
  - reflexivity.
  - reflexivity.
Defined.

(* ================================================================= *)
(** ** The thermal-zone file *)

(** C9: when the read of the thermal-zone file raises (an OSError, for a
    file that cannot be read), [get_cpu_temperature] and [comp_temp] end
    with that exception after this one call: the file is not read again and
    nothing else is called.  The exception then ends [read_values] and the
    loop of cycles. *)
Theorem thermal_zone_failure_propagates env (j : nat) st0 st e factor :
  (j < 5)%nat ->
  (passes env j ;; read_gas env) st0 = (Ok tt, st) ->
  thermal_zone_read env (trace st) = Raise e ->
  let st' := emit ThermalZoneRead st in
  get_cpu_temperature env st = (Raise e, st') /\
  comp_temp env factor st = (Raise e, st') /\
  read_values env st0 = (Raise e, st') /\
  forall n, cycles env (S n) st0 = (Raise e, st').
Proof.
  intros Hj Hreach Hfile st'.
  assert (Hcpu : get_cpu_temperature env st = (Raise e, st')).
  { unfold get_cpu_temperature, bind, call. rewrite Hfile. reflexivity. }
  assert (Hcomp : forall f, comp_temp env f st = (Raise e, st')).
  { intros f. unfold comp_temp. apply bind_Raise, Hcpu. }
  assert (Hcycle : read_values env st0 = (Raise e, st')).
  { apply bind_Ok_inv in Hreach. destruct Hreach as ([] & s1 & Hpass & Hgas).
    apply (read_values_raises_in_pass env j st0 s1); [exact Hj|exact Hpass|].
    unfold sub_sample. rewrite (bind_Ok _ _ _ _ _ Hgas).
    apply bind_Raise. unfold read_climate. apply bind_Raise, Hcomp. }
  repeat split; auto using cycles_raise.
Qed.

Lemma thermal_zone_failure_propagates_witness :
  read_values thermal_zone_unreadable initial_state =
    (Raise OSError,
     {| trace := [GasReadAll; ThermalZoneRead];
        registry := initial_registry;
        locals := snoc_gas (PyFloat 1.5) (PyFloat 2.5) (PyFloat 0.8125)
                    empty_window |}).
Proof.
  refine (proj1 (proj2 (proj2
    (thermal_zone_failure_propagates thermal_zone_unreadable 0 initial_state
       (with_locals (snoc_gas (PyFloat 1.5) (PyFloat 2.5) (PyFloat 0.8125)
                       empty_window) (emit GasReadAll initial_state))
       OSError temp_factor _ _ _)))).
  - lia.
  - vm_compute. reflexivity.
  - reflexivity.
Defined.

(* ================================================================= *)
(** ** Compensation *)

Lemma py_sub_float_l (c : float) x a :
  py_float x = Ok a -> py_sub (PyFloat c) x = Ok (PyFloat (c - a)%float).
Proof.
  intros H. unfold py_sub. destruct x; rewrite H; reflexivity.
Qed.

Lemma py_sub_float_r x (q : float) a :
  py_float x = Ok a -> py_sub x (PyFloat q) = Ok (PyFloat (a - q)%float).
Proof.
  intros H. unfold py_sub. destruct x; rewrite H; reflexivity.
Qed.

Lemma py_truediv_float_l (d : float) y f :
  py_float y = Ok f -> (f =? 0)%float = false ->
  py_truediv (PyFloat d) y = Ok (PyFloat (d / f)%float).
Proof.
  intros H Hz. unfold py_truediv.
  destruct y; rewrite H; simpl; rewrite Hz; reflexivity.
Qed.

(** One call of [comp_temp], from the two temperatures it reads. *)
Lemma comp_temp_run env st s raw_temp factor (cpu raw f : float) :
  get_cpu_temperature env st = (Ok (PyFloat cpu), s) ->
  bme280_get_temperature env (trace s) = Ok raw_temp ->
  py_float raw_temp = Ok raw ->
  py_float factor = Ok f ->
  (f =? 0)%float = false ->
  comp_temp env factor st =
    (Ok (PyFloat (float_round (raw - (cpu - raw) / f) 1)),
     emit GetTemperature s).
Proof.
  intros Hcpu Hraw Hr Hf Hz. unfold comp_temp.
  rewrite (bind_Ok _ _ _ _ _ Hcpu). unfold bind, call, lift. rewrite Hraw.
  rewrite (py_sub_float_l cpu raw_temp raw Hr). simpl.
  rewrite (py_truediv_float_l _ factor f Hf Hz). simpl.
  rewrite (py_sub_float_r raw_temp _ raw Hr). reflexivity.
Qed.

(** C4: with raw sensor temperature [raw], CPU temperature [cpu] and a
    factor whose value [f] is not 0, [comp_temp factor] returns
    [raw - (cpu - raw) / f] rounded to 1 decimal digit (in binary64
    arithmetic); a second call that reads the same two temperatures, in
    whatever environment and state, returns the same value. *)
Theorem comp_temp_formula env1 st1 s1 raw1 env2 st2 s2 raw2 factor
    (cpu raw f : float) :
  get_cpu_temperature env1 st1 = (Ok (PyFloat cpu), s1) ->
  bme280_get_temperature env1 (trace s1) = Ok raw1 ->
  py_float raw1 = Ok raw ->
  get_cpu_temperature env2 st2 = (Ok (PyFloat cpu), s2) ->
  bme280_get_temperature env2 (trace s2) = Ok raw2 ->
  py_float raw2 = Ok raw ->
  py_float factor = Ok f ->
  (f =? 0)%float = false ->
  fst (comp_temp env1 factor st1) =
    Ok (PyFloat (float_round (raw - (cpu - raw) / f) 1)) /\
  fst (comp_temp env2 factor st2) = fst (comp_temp env1 factor st1).
Proof.
  intros Hc1 Hr1 Hf1 Hc2 Hr2 Hf2 Hf Hz.
  rewrite (comp_temp_run env1 st1 s1 raw1 factor cpu raw f) by assumption.
  rewrite (comp_temp_run env2 st2 s2 raw2 factor cpu raw f) by assumption.
  split; reflexivity.
Qed.

(** The first pass on the bench (raw 20, CPU 30, factor 4.5) gives 17.8;
    so does the third pass, which reads the same temperatures. *)
Lemma comp_temp_formula_witness :
  fst (comp_temp bench temp_factor initial_state) = Ok (PyFloat 17.8) /\
  fst (comp_temp bench temp_factor
         (snd (passes bench 2 initial_state))) =
  fst (comp_temp bench temp_factor initial_state).
Proof.
  refine (comp_temp_formula bench initial_state
            (emit ThermalZoneRead initial_state) (PyFloat 20)
            bench (snd (passes bench 2 initial_state))
            (emit ThermalZoneRead (snd (passes bench 2 initial_state)))
            (PyFloat 20) temp_factor 30 20 4.5 _ _ _ _ _ _ _ _);
    vm_compute; reflexivity.
Defined.

(** The claim that [comp_humidity] shifts with its offset fails on the
    bench, where the raw humidity is 45.04: with offsets 20 and 20.02 the
    results are 65.0 and 65.1, 0.1 apart (up to the last bits), while the
    offsets are 0.02 apart. *)
Lemma comp_humidity_shift_counterexample :
  bme280_get_humidity bench (trace initial_state) = Ok (PyFloat 45.04) /\
  fst (comp_humidity bench (PyInt 20) initial_state) = Ok (PyFloat 65) /\
  fst (comp_humidity bench (PyFloat 20.02) initial_state)
    = Ok (PyFloat 65.1) /\
  py_sub (PyFloat 65.1) (PyFloat 65) = Ok (PyFloat 0.099999999999994316) /\
  py_sub (PyFloat 20.02) (PyInt 20) = Ok (PyFloat 0.019999999999999574) /\
  py_eqb (PyFloat 0.099999999999994316) (PyFloat 0.019999999999999574)
    = false.
Proof. vm_compute. repeat split; reflexivity. Qed.

(** C7, as the code has it: with raw humidity [raw], [comp_humidity offset]
    returns [raw + offset] rounded to 1 decimal digit.  The difference of
    two results is therefore a difference of two roundings; it is the
    difference of the offsets when the raw humidity and the offsets are
    ints, which [round] returns as they are. *)
Theorem comp_humidity_rounds_sum env st raw :
  bme280_get_humidity env (trace st) = Ok raw ->
  (forall offset x,
     py_add raw offset = Ok x ->
     comp_humidity env offset st = (Ok (py_round x 1), emit GetHumidity st))
  /\
  (forall h offset1 offset2 : Z,
     raw = PyInt h ->
     exists v1 v2,
       fst (comp_humidity env (PyInt offset1) st) = Ok v1 /\
       fst (comp_humidity env (PyInt offset2) st) = Ok v2 /\
       py_sub v2 v1 = py_sub (PyInt offset2) (PyInt offset1)).
Proof.
  intros Hraw.
  assert (Hrun : forall offset x,
    py_add raw offset = Ok x ->
    comp_humidity env offset st = (Ok (py_round x 1), emit GetHumidity st)).
  { intros offset x Hadd. unfold comp_humidity, bind, call, lift.
    rewrite Hraw, Hadd. reflexivity. }
  split; [exact Hrun|].
  intros h o1 o2 ->.
  exists (PyInt (h + o1)), (PyInt (h + o2)).
  rewrite (Hrun (PyInt o1) (PyInt (h + o1))) by reflexivity.
  rewrite (Hrun (PyInt o2) (PyInt (h + o2))) by reflexivity.
  repeat split. unfold py_sub. do 2 f_equal. lia.
Qed.

Lemma comp_humidity_rounds_sum_witness :
  comp_humidity bench (PyFloat 20.02) initial_state =
    (Ok (PyFloat 65.1), emit GetHumidity initial_state).
Proof.
  exact (proj1 (comp_humidity_rounds_sum bench initial_state (PyFloat 45.04)
                  eq_refl)
           (PyFloat 20.02) (PyFloat (45.04 + 20.02)) eq_refl).
Defined.

(* ================================================================= *)
(** ** Unit conversions *)

Lemma same_readings_refl st : same_readings st st.
Proof. repeat split. Qed.

Lemma same_readings_trans st1 st2 st3 :
  same_readings st1 st2 -> same_readings st2 st3 -> same_readings st1 st3.
Proof.
  unfold same_readings. intros (A1 & A2 & A3 & A4 & A5 & A6)
    (B1 & B2 & B3 & B4 & B5 & B6).
  rewrite B1, B2, B3, B4, B5, B6. repeat split; assumption.
Qed.

Lemma read_pm_same_readings env : preserves same_readings (read_pm env).
Proof.
  intros st r st'. destruct r as [[]|e]; intros H.
  - apply read_pm_Ok_inv in H. destruct H as (pmv & a & b & _ & _ & _ & ->).
    repeat split.
  - apply read_pm_Raise_inv in H.
    destruct H as [[_ ->] | [(pmv & _ & _ & ->) | (pmv & a & _ & _ & _ & ->)]];
      repeat split.
Qed.

Lemma read_particles_same_readings env :
  preserves same_readings (read_particles env).
Proof.
  unfold read_particles.
  apply (preserves_try_except _ same_readings_trans);
    [apply read_pm_same_readings|].
  apply (preserves_bind _ same_readings_trans).
  { intros st r st' H. injection H as _ <-. repeat split. }
  intros _. apply (preserves_bind _ same_readings_trans).
  { intros st r st' H. injection H as _ <-. repeat split. }
  intros _. apply read_pm_same_readings.
Qed.

(** The block of lines 86-96, when it completes, appended one value to
    each of the two particulate lists. *)
Lemma read_particles_Ok_inv env st st1 :
  accessors_never_transient env ->
  read_particles env st = (Ok tt, st1) ->
  exists a b, locals st1 = snoc_pm a b (locals st).
Proof.
  intros Hacc. unfold read_particles, try_except.
  destruct (read_pm env st) as [[[]|e] s] eqn:E.
  - intros H. injection H as <-. apply read_pm_Ok_inv in E.
    destruct E as (pmv & a & b & _ & _ & _ & ->). exists a, b. reflexivity.
  - destruct (transient e) eqn:Ht; [|discriminate].
    apply read_pm_Raise_inv in E.
    destruct E as [[_ ->] | [(pmv & Hr & Ha & _) | (pmv & a & Hr & _ & Hb & _)]].
    + intros H. run_Ok H. injection Hstep as <-.
      apply read_pm_Ok_inv in H. destruct H as (pmv & a1 & b & _ & _ & _ & ->).
      exists a1, b. reflexivity.
    + rewrite (Hacc _ _ _ _ Hr Ha) in Ht. discriminate Ht.
    + rewrite (Hacc _ _ _ _ Hr Hb) in Ht. discriminate Ht.
Qed.

(** A pass of the loop that completes: what it read and what it appended. *)
Lemma sub_sample_Ok_inv env st st' :
  sub_sample env st = (Ok tt, st') ->
  exists g o r n t h p v,
    gas_read_all env (trace st) = Ok g /\
    py_truediv (oxidising g) (PyInt 1000) = Ok o /\
    py_truediv (reducing g) (PyInt 1000) = Ok r /\
    py_truediv (nh3 g) (PyInt 1000) = Ok n /\
    one_decimal t /\ one_decimal h /\
    bme280_get_pressure env
      (trace st ++ [GasReadAll; ThermalZoneRead; GetTemperature;
                    GetHumidity]) = Ok p /\
    py_mul p (PyInt 100) = Ok v /\
    temps (locals st') = temps (locals st) ++ [t] /\
    humidities (locals st') = humidities (locals st) ++ [h] /\
    pressures (locals st') = pressures (locals st) ++ [v] /\
    gos (locals st') = gos (locals st) ++ [o] /\
    grs (locals st') = grs (locals st) ++ [r] /\
    gns (locals st') = gns (locals st) ++ [n] /\
    (accessors_never_transient env ->
     exists a b,
       pm10s (locals st') = pm10s (locals st) ++ [a] /\
       pm2s (locals st') = pm2s (locals st) ++ [b]).
Proof.
  intros H. unfold sub_sample in H.
  apply bind_Ok_inv in H. destruct H as ([] & s1 & Hgas & H).
  apply bind_Ok_inv in H. destruct H as ([] & s2 & Hclimate & H).
  apply bind_Ok_inv in H. destruct H as ([] & s3 & Hpm & H).
  injection H as <-.
  apply read_gas_Ok_inv in Hgas.
  destruct Hgas as (g & o & r & n & Hg & Ho & Hr & Hn & ->).
  apply read_climate_Ok_inv in Hclimate.
  destruct Hclimate as (t & h & p & v & Ht & Hh & Hp & Hv & ->).
  pose proof (read_particles_same_readings env _ _ _ Hpm)
    as (E1 & E2 & E3 & E4 & E5 & E6).
  simpl in Hp. rewrite <- app_assoc in Hp. simpl in Hp.
  exists g, o, r, n, t, h, p, v. simpl. rewrite E1, E2, E3, E4, E5, E6.
  repeat (split; [assumption || reflexivity|]).
  intros Hacc. destruct (read_particles_Ok_inv env _ _ Hacc Hpm) as (a & b & E).
  exists a, b. rewrite E. split; reflexivity.
Qed.

(** C8: in a pass of the loop that completes, the three values appended
    to the gas lists are the channels of the gas reading divided by 1000
    and the value appended to [pressures] is the pressure reading
    multiplied by 100.  A raw oxidising value of 1500 (int or float) is
    accumulated as 1.5 and a raw pressure of 1013.25 as 101325.0. *)
Theorem sub_sample_converts_units env st st' :
  sub_sample env st = (Ok tt, st') ->
  (exists g o r n p v,
     gas_read_all env (trace st) = Ok g /\
     py_truediv (oxidising g) (PyInt 1000) = Ok o /\
     py_truediv (reducing g) (PyInt 1000) = Ok r /\
     py_truediv (nh3 g) (PyInt 1000) = Ok n /\
     bme280_get_pressure env
       (trace st ++ [GasReadAll; ThermalZoneRead; GetTemperature;
                     GetHumidity]) = Ok p /\
     py_mul p (PyInt 100) = Ok v /\
     gos (locals st') = gos (locals st) ++ [o] /\
     grs (locals st') = grs (locals st) ++ [r] /\
     gns (locals st') = gns (locals st) ++ [n] /\
     pressures (locals st') = pressures (locals st) ++ [v]) /\
  py_truediv (PyInt 1500) (PyInt 1000) = Ok (PyFloat 1.5) /\
  py_truediv (PyFloat 1500) (PyInt 1000) = Ok (PyFloat 1.5) /\
  py_mul (PyFloat 1013.25) (PyInt 100) = Ok (PyFloat 101325).
Proof.
  intros H. split; [|vm_compute; repeat split; reflexivity].
  destruct (sub_sample_Ok_inv env st st' H)
    as (g & o & r & n & t & h & p & v & Hg & Ho & Hr & Hn & _ & _ & Hp & Hv
        & _ & _ & Epress & Egos & Egrs & Egns & _).
  exists g, o, r, n, p, v. repeat split; assumption.
Qed.

Lemma sub_sample_converts_units_witness :
  gos (locals (snd (sub_sample bench initial_state))) = [PyFloat 1.5] /\
  pressures (locals (snd (sub_sample bench initial_state)))
    = [PyFloat 101325].
Proof.
  destruct (sub_sample_converts_units bench initial_state
              (snd (sub_sample bench initial_state)))
    as [(g & o & r & n & p & v & Hg & Ho & _ & _ & Hp & Hv & Hgos & _ & _
         & Hpress) _].
  - vm_compute. reflexivity.
  - injection Hg as <-. injection Hp as <-.
    injection Ho as <-. injection Hv as <-.
    split; [exact Hgos | exact Hpress].
Defined.

(* ================================================================= *)
(** ** The window at the moment of averaging *)

Lemma for_range_sizes env (n k : nat) st st' :
  accessors_never_transient env ->
  for_range n (sub_sample env) st = (Ok tt, st') ->
  window_sizes (locals st) k ->
  window_sizes (locals st') (k + n).
Proof.
  intros Hacc. revert k st. induction n as [|n IH]; intros k st H Hk.
  - injection H as <-. replace (k + 0)%nat with k by lia. exact Hk.
  - simpl in H. apply bind_Ok_inv in H. destruct H as ([] & s1 & Hpass & H).
    replace (k + S n)%nat with (S k + n)%nat by lia.
    apply (IH (S k) s1 H).
    destruct (sub_sample_Ok_inv env st s1 Hpass)
      as (g & o & r & m & t & h & p & v & _ & _ & _ & _ & _ & _ & _ & _
          & E1 & E2 & E3 & E4 & E5 & E6 & Hpm).
    destruct (Hpm Hacc) as (a & b & E7 & E8).
    destruct Hk as (K1 & K2 & K3 & K4 & K5 & K6 & K7 & K8).
    unfold window_sizes.
    rewrite E1, E2, E3, E4, E5, E6, E7, E8, !length_app. simpl.
    repeat split; lia.
Qed.

Lemma for_range_rounded env (n : nat) st st' :
  for_range n (sub_sample env) st = (Ok tt, st') ->
  rounded_window (locals st) ->
  rounded_window (locals st').
Proof.
  revert st. induction n as [|n IH]; intros st H Hw.
  - injection H as <-. exact Hw.
  - simpl in H. apply bind_Ok_inv in H. destruct H as ([] & s1 & Hpass & H).
    apply (IH s1 H).
    destruct (sub_sample_Ok_inv env st s1 Hpass)
      as (g & o & r & m & t & h & p & v & _ & _ & _ & _ & Ht & Hh & _ & _
          & E1 & E2 & _).
    destruct Hw as [W1 W2]. unfold rounded_window. rewrite E1, E2. split.
    + apply Forall_app. split; [exact W1 | repeat constructor; exact Ht].
    + apply Forall_app. split; [exact W2 | repeat constructor; exact Hh].
Qed.

(** C5: in a cycle that reaches the averaging, that is, whose sampling
    completes, each of the eight lists holds exactly 5 values when line 101
    begins.  (The lookups on a frame of the particulate sensor are taken
    not to raise the errors of its reads.) *)
Theorem sampling_fills_five env st st1 :
  accessors_never_transient env ->
  sampling env st = (Ok tt, st1) ->
  length (temps (locals st1)) = 5%nat /\
  length (humidities (locals st1)) = 5%nat /\
  length (pressures (locals st1)) = 5%nat /\
  length (pm10s (locals st1)) = 5%nat /\
  length (pm2s (locals st1)) = 5%nat /\
  length (gos (locals st1)) = 5%nat /\
  length (grs (locals st1)) = 5%nat /\
  length (gns (locals st1)) = 5%nat.
Proof.
  intros Hacc H. unfold sampling in H.
  apply bind_Ok_inv in H. destruct H as ([] & s0 & Hinit & H).
  injection Hinit as <-.
  apply (for_range_sizes env 5 0 _ st1 Hacc H).
  repeat split.
Qed.

Lemma pms_data_never_transient pm1 pm2_5 pm10 size e :
  pm_ug_per_m3 (pms_data pm1 pm2_5 pm10) size = Raise e -> transient e = false.
Proof.
  simpl. destruct (py_eqb size (PyFloat 1)); [discriminate|].
  destruct (py_eqb size (PyFloat 2.5)); [discriminate|].
  destruct (py_eqb size (PyInt 10)); [discriminate|].
  intros H. injection H as <-. reflexivity.
Qed.

Lemma pms_times_out_once_accessors :
  accessors_never_transient pms_times_out_once.
Proof.
  intros t pmv size e Hread Hacc.
  assert (Hpmv : pmv = pms_data 1 5 9 \/ pmv = pms_data 3 7 12).
  { unfold pms_times_out_once, with_pms, scripted in Hread. simpl in Hread.
    destruct (count_calls is_pms_read t) as [|[|[|k]]]; simpl in Hread;
      try discriminate Hread; injection Hread as <-; auto. }
  destruct Hpmv as [-> | ->]; eapply pms_data_never_transient, Hacc.
Qed.

(** A cycle whose first particulate read times out and is retried. *)
Lemma sampling_fills_five_witness :
  fst (sampling pms_times_out_once initial_state) = Ok tt /\
  length (pm10s (locals (snd (sampling pms_times_out_once initial_state))))
    = 5%nat /\
  length (gos (locals (snd (sampling pms_times_out_once initial_state))))
    = 5%nat.
Proof.
  split; [vm_compute; reflexivity|].
  destruct (sampling_fills_five pms_times_out_once initial_state
              (snd (sampling pms_times_out_once initial_state))
              pms_times_out_once_accessors)
    as (_ & _ & _ & H10 & _ & Hgos & _).
  - vm_compute. reflexivity.
  - split; [exact H10 | exact Hgos].
Defined.

(* ================================================================= *)
(** ** Publishing the means *)

(** The mean of five floats, as lines 101-105 compute it. *)
Lemma average_five_floats (x1 x2 x3 x4 x5 : float) :
  average [PyFloat x1; PyFloat x2; PyFloat x3; PyFloat x4; PyFloat x5] =
  Ok (PyFloat ((0 + x1 + x2 + x3 + x4 + x5) / 5)%float).
Proof. reflexivity. Qed.

(** Five floats always have a mean: with float entries the averaging of
    lines 101-105 raises nothing. *)
Lemma average_of_five_floats (xs : list pynum) :
  length xs = 5%nat ->
  Forall (fun x => exists f, x = PyFloat f) xs ->
  exists m, average xs = Ok (PyFloat m).
Proof.
  intros Hlen Hall.
  destruct xs as [|x1 [|x2 [|x3 [|x4 [|x5 [|x6 xs]]]]]]; try discriminate Hlen.
  repeat match goal with
         | H : Forall _ (_ :: _) |- _ => apply Forall_cons in H; destruct H as [[? ->] H]
         end.
  eexists. apply average_five_floats.
Qed.

(** The mean of five ints that are not too large. *)
Example average_five_ints :
  average [PyInt 7; PyInt 8; PyInt 7; PyInt 9; PyInt 7] = Ok (PyFloat 7.6).
Proof. reflexivity. Qed.

Lemma publish_run st (mt mh mp m2 m10 : float) :
  average (temps (locals st)) = Ok (PyFloat mt) ->
  average (humidities (locals st)) = Ok (PyFloat mh) ->
  average (pressures (locals st)) = Ok (PyFloat mp) ->
  average (pm2s (locals st)) = Ok (PyFloat m2) ->
  average (pm10s (locals st)) = Ok (PyFloat m10) ->
  publish st =
    (Ok tt,
     {| trace := trace st ++
          [GaugeSet Gauge.gt mt; GaugeSet Gauge.gh mh; GaugeSet Gauge.gp mp;
           GaugeSet Gauge.gp2 m2; GaugeSet Gauge.gp10 m10];
        registry :=
          <[Gauge.gp10 := m10]> (<[Gauge.gp2 := m2]> (<[Gauge.gp := mp]>
          (<[Gauge.gh := mh]> (<[Gauge.gt := mt]> (registry st)))));
        locals := locals st |}).
Proof.
  intros Ht Hh Hp H2 H10.
  unfold publish, bind, get_locals, lift, gauge_set, bind, lift. simpl.
  rewrite Ht, Hh, Hp, H2, H10. unfold py_float. simpl.
  rewrite <- !app_assoc. reflexivity.
Qed.

(** On the bench the five compensated temperatures are 17.8, 19.0, 17.8,
    20.2 and 19.0; the cycle leaves their mean, about 18.76, in
    shop_temperature.  Rounded to 1 decimal digit the mean would be 18.8:
    the gauge does not hold a value rounded to 1 decimal digit. *)
Lemma mean_not_rounded_counterexample :
  fst (read_values bench initial_state) = Ok tt /\
  temps (locals (snd (read_values bench initial_state))) =
    [PyFloat 17.8; PyFloat 19; PyFloat 17.8; PyFloat 20.2; PyFloat 19] /\
  registry (snd (read_values bench initial_state)) !! Gauge.gt
    = Some 18.759999999999998%float /\
  (18.75 <? 18.759999999999998)%float = true /\
  (18.759999999999998 <? 18.77)%float = true /\
  float_round 18.759999999999998 1 = 18.8%float /\
  (18.759999999999998 =? 18.8)%float = false.
Proof. vm_compute. repeat split; reflexivity. Qed.

(** C1, as the code has it: in a cycle whose sampling completes, each of
    the five published gauges is set to [sum(xs)/len(xs)] of its list, as
    it is: no mean is rounded.  What is rounded to 1 decimal digit is each
    entry of the temperature and humidity lists, by [comp_temp] and
    [comp_humidity], before it is averaged; the pressure and particulate
    entries are not rounded. *)
Theorem read_values_publishes_means env st st1 (mt mh mp m2 m10 : float) :
  sampling env st = (Ok tt, st1) ->
  average (temps (locals st1)) = Ok (PyFloat mt) ->
  average (humidities (locals st1)) = Ok (PyFloat mh) ->
  average (pressures (locals st1)) = Ok (PyFloat mp) ->
  average (pm2s (locals st1)) = Ok (PyFloat m2) ->
  average (pm10s (locals st1)) = Ok (PyFloat m10) ->
  exists st2,
    read_values env st = (Ok tt, st2) /\
    trace st2 = trace st1 ++
      [GaugeSet Gauge.gt mt; GaugeSet Gauge.gh mh; GaugeSet Gauge.gp mp;
       GaugeSet Gauge.gp2 m2; GaugeSet Gauge.gp10 m10] /\
    registry st2 !! Gauge.gt = Some mt /\
    registry st2 !! Gauge.gh = Some mh /\
    registry st2 !! Gauge.gp = Some mp /\
    registry st2 !! Gauge.gp2 = Some m2 /\
    registry st2 !! Gauge.gp10 = Some m10 /\
    Forall one_decimal (temps (locals st1)) /\
    Forall one_decimal (humidities (locals st1)).
Proof.
  intros Hs Ht Hh Hp H2 H10. eexists. split.
  - unfold read_values. rewrite (bind_Ok _ _ _ _ _ Hs).
    apply (publish_run st1 mt mh mp m2 m10); assumption.
  - simpl. split; [reflexivity|].
    repeat (split; [by simplify_map_eq|]).
    unfold sampling in Hs.
    apply bind_Ok_inv in Hs. destruct Hs as ([] & s0 & Hinit & Hs).
    injection Hinit as <-.
    apply (for_range_rounded env 5 _ st1 Hs).
    split; constructor.
Qed.

Lemma read_values_publishes_means_witness :
  exists st2,
    read_values bench initial_state = (Ok tt, st2) /\
    registry st2 !! Gauge.gt = Some 18.759999999999998%float /\
    registry st2 !! Gauge.gh = Some 65%float /\
    registry st2 !! Gauge.gp = Some 101325%float /\
    registry st2 !! Gauge.gp2 = Some 7%float /\
    registry st2 !! Gauge.gp10 = Some 12%float.
Proof.
  destruct (read_values_publishes_means bench initial_state
              (snd (sampling bench initial_state))
              18.759999999999998 65 101325 7 12)
    as (st2 & Hrun & _ & Ht & Hh & Hp & H2 & H10 & _);
    try (vm_compute; reflexivity).
  exists st2. repeat split; assumption.
Defined.

(* ================================================================= *)
(** ** Further properties of the particulate block *)

Section Particles.

Variable env : environment.

(** Whatever its outcome, [read_pm] issues one read and nothing else. *)
Lemma read_pm_calls {r} st st' :
  read_pm env st = (r, st') ->
  trace st' = trace st ++ [PmsRead] /\ registry st' = registry st.
Proof.
  destruct r as [[]|e]; intros H.
  - apply read_pm_Ok_inv in H. destruct H as (pmv & a & b & _ & _ & _ & ->).
    split; reflexivity.
  - apply read_pm_Raise_inv in H.
    destruct H as [[_ ->] | [(pmv & _ & _ & ->) | (pmv & a & _ & _ & _ & ->)]];
      split; reflexivity.
Qed.

(** The calls of the block of lines 86-96, whatever its outcome. *)
Lemma read_particles_calls st :
  exists d,
    trace (snd (read_particles env st)) = trace st ++ d /\
    registry (snd (read_particles env st)) = registry st /\
    (d = [PmsRead] \/
     d = [PmsRead; LoggingInfo retry_message; PmsReset] \/
     d = [PmsRead; LoggingInfo retry_message; PmsReset; PmsRead]).
Proof.
  unfold read_particles, try_except.
  destruct (read_pm env st) as [r s] eqn:E.
  destruct (read_pm_calls _ _ E) as [Ht Hr].
  assert (Hfirst : exists d, trace s = trace st ++ d /\
            registry s = registry st /\
            (d = [PmsRead] \/
             d = [PmsRead; LoggingInfo retry_message; PmsReset] \/
             d = [PmsRead; LoggingInfo retry_message; PmsReset; PmsRead])).
  { exists [PmsRead]. auto. }
  destruct r as [[]|e]; [exact Hfirst|].
  destruct (transient e); [|exact Hfirst].
  unfold bind, tell, call. simpl.
  destruct (pms5003_reset env (trace s ++ [LoggingInfo retry_message]))
    as [[]|e'].
  - destruct (read_pm env (emit PmsReset (emit (LoggingInfo retry_message) s)))
      as [r2 s2] eqn:E2.
    destruct (read_pm_calls _ _ E2) as [Ht2 Hr2].
    exists [PmsRead; LoggingInfo retry_message; PmsReset; PmsRead].
    split; [|split; [|auto]].
    + simpl in *. rewrite Ht2, Ht, <- !app_assoc. reflexivity.
    + simpl in *. rewrite Hr2, Hr. reflexivity.
  - exists [PmsRead; LoggingInfo retry_message; PmsReset].
    split; [|split; [|auto]].
    + simpl. rewrite Ht, <- !app_assoc. reflexivity.
    + simpl. exact Hr.
Qed.

(** X1: whatever the particulate sensor does, the block of lines 86-96
    reads it at most twice and resets it at most once, and it sets no
    gauge: the retry is bounded. *)
Theorem read_particles_at_most_one_retry st :
  exists d,
    trace (snd (read_particles env st)) = trace st ++ d /\
    registry (snd (read_particles env st)) = registry st /\
    (1 <= count_calls is_pms_read d <= 2)%nat /\
    (count_calls is_pms_reset d <= 1)%nat /\
    (count_calls is_pms_read d <= 1 + count_calls is_pms_reset d)%nat.
Proof.
  destruct (read_particles_calls st) as (d & Ht & Hr & Hd).
  exists d. split; [exact Ht|]. split; [exact Hr|].
  destruct Hd as [-> | [-> | ->]]; simpl; lia.
Qed.

(** X2: an exception of the first read that is neither a read timeout nor
    a checksum mismatch is not caught: it leaves the block after that one
    read, with no log line, no reset and no second read, and nothing is
    appended. *)
Theorem read_particles_uncaught st e :
  pms5003_read env (trace st) = Raise e ->
  transient e = false ->
  read_particles env st = (Raise e, emit PmsRead st).
Proof.
  intros Hread Hcaught. unfold read_particles, try_except.
  rewrite (read_pm_read_Raise env st e Hread), Hcaught. reflexivity.
Qed.

(** X3: when the reset of the handler raises, its exception leaves the
    block: the sensor is not read a second time. *)
Theorem read_particles_reset_failure st e1 e :
  pms5003_read env (trace st) = Raise e1 ->
  transient e1 = true ->
  pms5003_reset env (trace st ++ [PmsRead; LoggingInfo retry_message])
    = Raise e ->
  read_particles env st =
    (Raise e, extend [PmsRead; LoggingInfo retry_message; PmsReset] st).
Proof.
  intros Hread Hcaught Hreset. unfold read_particles, try_except.
  rewrite (read_pm_read_Raise env st e1 Hread), Hcaught.
  unfold bind at 1. unfold tell at 1. unfold bind at 1. unfold call at 1.
  simpl. rewrite <- app_assoc. simpl. rewrite Hreset.
  unfold extend, emit. simpl. rewrite <- !app_assoc. reflexivity.
Qed.

(** X4: the appends of lines 88-89 are inside the [try].  When the PM10
    value of the first frame was appended and the PM2.5 lookup then raises
    one of the two caught errors, the handler appends the PM10 value of the
    second frame as well: the pass adds two values to [pm10s] and one to
    [pm2s]. *)
Theorem read_particles_double_append st pmv1 a1 e pmv2 a2 b2 :
  pms5003_read env (trace st) = Ok pmv1 ->
  pm_ug_per_m3 pmv1 (PyInt 10) = Ok a1 ->
  pm_ug_per_m3 pmv1 (PyFloat 2.5) = Raise e ->
  transient e = true ->
  pms5003_reset env (trace st ++ [PmsRead; LoggingInfo retry_message])
    = Ok tt ->
  pms5003_read env
    (trace st ++ [PmsRead; LoggingInfo retry_message; PmsReset]) = Ok pmv2 ->
  pm_ug_per_m3 pmv2 (PyInt 10) = Ok a2 ->
  pm_ug_per_m3 pmv2 (PyFloat 2.5) = Ok b2 ->
  exists st',
    read_particles env st = (Ok tt, st') /\
    pm10s (locals st') = pm10s (locals st) ++ [a1; a2] /\
    pm2s (locals st') = pm2s (locals st) ++ [b2].
Proof.
  intros Hr1 Ha1 Hb1 Hcaught Hreset Hr2 Ha2 Hb2.
  assert (E : read_pm env st =
            (Raise e, with_locals (snoc_pm10 a1 (locals st)) (emit PmsRead st))).
  { unfold read_pm, bind, call, lift. rewrite Hr1. simpl.
    rewrite Ha1. simpl. rewrite Hb1. reflexivity. }
  eexists. split.
  - unfold read_particles, try_except. rewrite E, Hcaught.
    unfold bind at 1. unfold tell at 1. unfold bind at 1. unfold call at 1.
    simpl. rewrite <- app_assoc. simpl. rewrite Hreset.
    apply (read_pm_Ok env _ pmv2 a2 b2);
      simpl; rewrite <- ?app_assoc; simpl; assumption.
  - simpl. rewrite <- app_assoc. split; reflexivity.
Qed.

End Particles.

Lemma read_particles_uncaught_witness :
  read_particles pms_serial_timeout initial_state =
    (Raise (OtherError "SerialTimeoutError"), emit PmsRead initial_state).
Proof.
  apply (read_particles_uncaught pms_serial_timeout initial_state);
    reflexivity.
Defined.

Lemma read_particles_reset_failure_witness :
  read_particles pms_reset_fails initial_state =
    (Raise OSError,
     extend [PmsRead; LoggingInfo retry_message; PmsReset] initial_state).
Proof.
  apply (read_particles_reset_failure pms_reset_fails initial_state
           ReadTimeoutError OSError); reflexivity.
Defined.

Lemma read_particles_double_append_witness :
  exists st',
    read_particles pms_broken_frame initial_state = (Ok tt, st') /\
    pm10s (locals st') = [PyInt 4; PyInt 9] /\
    pm2s (locals st') = [PyInt 5].
Proof.
  apply (read_particles_double_append pms_broken_frame initial_state
           (broken_frame 4) (PyInt 4) ReadTimeoutError
           (pms_data 1 5 9) (PyInt 9) (PyInt 5)); reflexivity.
Defined.

(* ================================================================= *)
(** ** The calls of a cycle *)

Section Calls.

Variable env : environment.

Lemma read_particles_Ok_calls st st' :
  read_particles env st = (Ok tt, st') ->
  exists retried, trace st' = trace st ++ particle_calls retried.
Proof.
  unfold read_particles, try_except.
  destruct (read_pm env st) as [[[]|e] s] eqn:E.
  - intros H. injection H as <-. exists false.
    apply (read_pm_calls env _ _ E).
  - destruct (transient e); [|discriminate].
    destruct (read_pm_calls env _ _ E) as [Ht _].
    intros H. run_Ok H. injection Hstep as <-.
    destruct (read_pm_calls env _ _ H) as [Ht2 _].
    exists true. simpl in *. rewrite Ht2, Ht, <- !app_assoc. reflexivity.
Qed.

Lemma sub_sample_Ok_calls st st' :
  sub_sample env st = (Ok tt, st') ->
  exists retried, trace st' = trace st ++ pass_calls retried.
Proof.
  intros H. unfold sub_sample in H.
  apply bind_Ok_inv in H. destruct H as ([] & s1 & Hgas & H).
  apply bind_Ok_inv in H. destruct H as ([] & s2 & Hclimate & H).
  apply bind_Ok_inv in H. destruct H as ([] & s3 & Hpm & H).
  injection H as <-.
  apply read_gas_Ok_inv in Hgas.
  destruct Hgas as (g & o & r & n & _ & _ & _ & _ & ->).
  apply read_climate_Ok_inv in Hclimate.
  destruct Hclimate as (t & h & p & v & _ & _ & _ & _ & ->).
  apply read_particles_Ok_calls in Hpm. destruct Hpm as (retried & Hpm).
  exists retried. unfold pass_calls. simpl in *.
  rewrite Hpm, <- !app_assoc. reflexivity.
Qed.

Lemma for_range_Ok_calls (n : nat) st st' :
  for_range n (sub_sample env) st = (Ok tt, st') ->
  exists retried : list bool,
    length retried = n /\
    trace st' = trace st ++ concat (map pass_calls retried).
Proof.
  revert st. induction n as [|n IH]; intros st H.
  - injection H as <-. exists []. split; [reflexivity|].
    simpl. symmetry. apply app_nil_r.
  - simpl in H. apply bind_Ok_inv in H. destruct H as ([] & s1 & Hpass & H).
    destruct (sub_sample_Ok_calls _ _ Hpass) as (b & Hb).
    destruct (IH _ H) as (bs & Hlen & Hbs).
    exists (b :: bs). split; [simpl; f_equal; exact Hlen|].
    rewrite Hbs, Hb. simpl. rewrite <- app_assoc. reflexivity.
Qed.

(** X5: the sampling of a cycle, when it completes, has issued the calls
    of five passes and nothing else: five reads of the gas sensor, of the
    thermal-zone file, of the temperature, of the humidity and of the
    pressure, five sleeps of one second, at most five resets of the
    particulate sensor and one read of it per pass plus one per reset. *)
Theorem sampling_calls st st1 :
  sampling env st = (Ok tt, st1) ->
  exists retried : list bool,
    length retried = 5%nat /\
    trace st1 = trace st ++ concat (map pass_calls retried) /\
    let d := concat (map pass_calls retried) in
    count_calls is_gas_read d = 5%nat /\
    count_calls is_thermal_zone_read d = 5%nat /\
    count_calls is_get_temperature d = 5%nat /\
    count_calls is_get_humidity d = 5%nat /\
    count_calls is_get_pressure d = 5%nat /\
    count_calls is_sleep d = 5%nat /\
    (count_calls is_pms_reset d <= 5)%nat /\
    count_calls is_pms_read d = (5 + count_calls is_pms_reset d)%nat /\
    count_calls is_gauge_set d = 0%nat.
Proof.
  intros H. unfold sampling in H.
  apply bind_Ok_inv in H. destruct H as ([] & s0 & Hinit & H).
  injection Hinit as <-.
  destruct (for_range_Ok_calls 5 _ _ H) as (bs & Hlen & Hbs).
  exists bs. split; [exact Hlen|]. split; [exact Hbs|].
  destruct bs as [|b1 [|b2 [|b3 [|b4 [|b5 [|b6 bs]]]]]]; try discriminate Hlen.
  destruct b1, b2, b3, b4, b5; simpl; repeat split; lia.
Qed.

End Calls.

Lemma sampling_calls_witness :
  trace (snd (sampling pms_times_out_once initial_state)) =
    concat (map pass_calls [true; false; false; false; false]).
Proof.
  destruct (sampling_calls pms_times_out_once initial_state
              (snd (sampling pms_times_out_once initial_state)))
    as (retried & _ & Htrace & _).
  - vm_compute. reflexivity.
  - vm_compute. reflexivity.
Defined.

(* ================================================================= *)
(** ** The temperature gauge is always written *)

Lemma py_truediv_Ok_float x y v :
  py_truediv x y = Ok v -> exists f, v = PyFloat f.
Proof.
  unfold py_truediv, rbind. intros H.
  destruct x as [a|a], y as [b|b];
    repeat match type of H with
           | context [if ?c then _ else _] => destruct c
           | context [match py_float ?z with _ => _ end] => destruct (py_float z)
           end;
    try discriminate H; injection H as <-; eexists; reflexivity.
Qed.

Lemma py_sub_float_Ok_l (c : float) y v :
  py_sub (PyFloat c) y = Ok v -> exists f, v = PyFloat f.
Proof.
  unfold py_sub, rbind. intros H.
  destruct (py_float (PyFloat c)); [|discriminate H].
  destruct (py_float y); [|discriminate H].
  injection H as <-. eexists. reflexivity.
Qed.

Lemma py_sub_float_Ok_r x (q : float) v :
  py_sub x (PyFloat q) = Ok v -> exists f, v = PyFloat f.
Proof.
  unfold py_sub, rbind. intros H. destruct x as [a|a];
    (destruct (py_float _); [|discriminate H]);
    (destruct (py_float (PyFloat q)); [|discriminate H]);
    injection H as <-; eexists; reflexivity.
Qed.

Section TemperatureGauge.

Variable env : environment.

(** [comp_temp] returns a float, also when the sensor gives an int: the
    CPU temperature is the result of a true division. *)
Lemma comp_temp_Ok_float factor st v st1 :
  comp_temp env factor st = (Ok v, st1) -> exists f, v = PyFloat f.
Proof.
  unfold comp_temp. intros H. run_Ok H.
  apply get_cpu_temperature_Ok_inv in Hstep.
  destruct Hstep as (text & z & _ & _ & Hcpu & ->).
  apply py_truediv_Ok_float in Hcpu. destruct Hcpu as (c & ->).
  injection H as <- <-.
  apply rbind_Ok_inv in Hstep1. destruct Hstep1 as (d & Hd & Hstep1).
  apply rbind_Ok_inv in Hstep1. destruct Hstep1 as (q & Hq & Hsub).
  apply py_truediv_Ok_float in Hq. destruct Hq as (q' & ->).
  apply py_sub_float_Ok_r in Hsub. destruct Hsub as (f & ->).
  eexists. reflexivity.
Qed.

Lemma sub_sample_Ok_temp_float st st' :
  sub_sample env st = (Ok tt, st') ->
  exists f, temps (locals st') = temps (locals st) ++ [PyFloat f].
Proof.
  intros H. unfold sub_sample in H.
  apply bind_Ok_inv in H. destruct H as ([] & s1 & Hgas & H).
  apply bind_Ok_inv in H. destruct H as ([] & s2 & Hclimate & H).
  apply bind_Ok_inv in H. destruct H as ([] & s3 & Hpm & H).
  injection H as <-.
  apply read_gas_Ok_inv in Hgas.
  destruct Hgas as (g & o & r & n & _ & _ & _ & _ & ->).
  pose proof (read_particles_same_readings env _ _ _ Hpm) as (E1 & _).
  unfold read_climate in Hclimate.
  apply bind_Ok_inv in Hclimate. destruct Hclimate as (t & s & Ht & Hrest).
  pose proof (comp_temp_Ok_float _ _ _ _ Ht) as (f & ->).
  apply comp_temp_Ok_inv in Ht. destruct Ht as [_ ->].
  apply bind_Ok_inv in Hrest. destruct Hrest as ([] & s & Happ & Hrest).
  injection Happ as <-.
  assert (Hkeep : temps (locals s2) = temps (locals st) ++ [PyFloat f]).
  { run_Ok Hrest. apply comp_humidity_Ok_inv in Hstep.
    destruct Hstep as (raw & x & _ & _ & _ & ->).
    injection Hstep0 as <-. injection Hrest as <-. reflexivity. }
  exists f. simpl. rewrite E1. exact Hkeep.
Qed.

Lemma for_range_Ok_temps (n : nat) st st' :
  for_range n (sub_sample env) st = (Ok tt, st') ->
  Forall (fun x => exists f, x = PyFloat f) (temps (locals st)) ->
  Forall (fun x => exists f, x = PyFloat f) (temps (locals st')) /\
  length (temps (locals st')) = (length (temps (locals st)) + n)%nat.
Proof.
  revert st. induction n as [|n IH]; intros st H Hall.
  - injection H as <-. split; [exact Hall | lia].
  - simpl in H. apply bind_Ok_inv in H. destruct H as ([] & s1 & Hpass & H).
    destruct (sub_sample_Ok_temp_float _ _ Hpass) as (f & Hf).
    destruct (IH s1 H) as [Hall' Hlen].
    + rewrite Hf. apply Forall_app. split; [exact Hall|].
      repeat constructor. eexists. reflexivity.
    + split; [exact Hall'|]. rewrite Hlen, Hf, length_app. simpl. lia.
Qed.

(** After line 101 only the other four gauges are written. *)
Lemma publish_after_temperature st (m : float) :
  average (temps (locals st)) = Ok (PyFloat m) ->
  exists d,
    trace (snd (publish st)) = trace st ++ GaugeSet Gauge.gt m :: d /\
    registry (snd (publish st)) !! Gauge.gt = Some m.
Proof.
  intros Havg. unfold publish.
  rewrite (bind_Ok get_locals _ st (locals st) st eq_refl).
  rewrite (bind_Ok (lift (average (temps (locals st)))) _ st (PyFloat m) st)
    by (unfold lift; rewrite Havg; reflexivity).
  rewrite (bind_Ok (gauge_set Gauge.gt (PyFloat m)) _ st tt
             {| trace := trace st ++ [GaugeSet Gauge.gt m];
                registry := <[Gauge.gt := m]> (registry st);
                locals := locals st |}) by reflexivity.
  match goal with
  | |- context [snd (?c ?s)] =>
      assert (Hrest : preserves (touches published_after_temperature) c)
  end.
  { repeat first
      [ apply (preserves_lift _ (touches_refl _))
      | apply touches_gauge_set; unfold published_after_temperature;
        simpl; tauto
      | apply (preserves_bind _ (touches_trans _)); [|intros ?] ]. }
  match goal with
  | |- context [snd (?c ?s)] =>
      destruct (Hrest s (fst (c s)) (snd (c s)) (surjective_pairing _))
        as [Hreg (d & Htrace & _)]
  end.
  exists d. split.
  - rewrite Htrace. simpl. rewrite <- app_assoc. reflexivity.
  - rewrite Hreg.
    + simpl. apply lookup_insert_eq.
    + unfold published_after_temperature. simpl.
      intros H; repeat (destruct H as [H|H]; [discriminate H|]); exact H.
Qed.

(** X6: when the sampling of a cycle completes, line 101 cannot raise:
    the five temperatures are floats (also when the sensor gave ints), so
    their mean exists and shop_temperature is set to it, whatever happens
    on lines 102-105. *)
Theorem temperature_always_published st st1 :
  sampling env st = (Ok tt, st1) ->
  exists m d,
    average (temps (locals st1)) = Ok (PyFloat m) /\
    trace (snd (read_values env st)) = trace st1 ++ GaugeSet Gauge.gt m :: d /\
    registry (snd (read_values env st)) !! Gauge.gt = Some m.
Proof.
  intros Hs.
  assert (Hm : exists m, average (temps (locals st1)) = Ok (PyFloat m)).
  { unfold sampling in Hs.
    apply bind_Ok_inv in Hs. destruct Hs as ([] & s0 & Hinit & Hs).
    injection Hinit as <-.
    destruct (for_range_Ok_temps 5 _ _ Hs) as [Hall Hlen]; [constructor|].
    apply average_of_five_floats; assumption. }
  destruct Hm as (m & Hm).
  destruct (publish_after_temperature st1 m Hm) as (d & Ht & Hr).
  exists m, d. split; [exact Hm|].
  unfold read_values. rewrite (bind_Ok _ _ _ _ _ Hs). split; assumption.
Qed.

End TemperatureGauge.

Lemma temperature_always_published_witness :
  exists d,
    trace (snd (read_values bench initial_state)) =
      trace (snd (sampling bench initial_state))
      ++ GaugeSet Gauge.gt 18.759999999999998 :: d /\
    registry (snd (read_values bench initial_state)) !! Gauge.gt
      = Some 18.759999999999998%float.
Proof.
  destruct (temperature_always_published bench initial_state
              (snd (sampling bench initial_state)))
    as (m & d & Hm & Ht & Hr).
  - vm_compute. reflexivity.
  - assert (Hm' : average (temps (locals (snd (sampling bench initial_state))))
                  = Ok (PyFloat 18.759999999999998))
      by (vm_compute; reflexivity).
    rewrite Hm' in Hm. injection Hm as <-.
    exists d. split; assumption.
Defined.

(* ================================================================= *)
(** ** Cycles one after the other *)

Section Loop.

Variable env : environment.

Lemma cycles_split (k m : nat) st :
  cycles env (k + m) st = (cycles env k ;; cycles env m) st.
Proof.
  revert st. induction k as [|k IH]; intros st; simpl.
  - reflexivity.
  - rewrite bind_assoc.
    destruct (read_values env st) as [[[]|e] st1] eqn:E.
    + rewrite !(bind_Ok _ _ _ _ _ E). apply IH.
    + rewrite !(bind_Raise _ _ _ _ _ E). reflexivity.
Qed.

Lemma passes_touches P j : preserves (touches P) (passes env j).
Proof.
  unfold passes.
  apply (preserves_bind _ (touches_trans _)); [apply touches_set_locals|].
  intros _.
  apply (preserves_for_range _ (touches_refl _) (touches_trans _)).
  apply sub_sample_touches.
Qed.


(** X8: from the start of the process and over any number of cycles,
    completed or not, shop_oxidised, shop_reduced and shop_nh3 hold the
    0.0 they were created with. *)
Theorem gas_gauges_stay_zero (n : nat) :
  registry (snd (cycles env n initial_state)) !! Gauge.go = Some 0%float /\
  registry (snd (cycles env n initial_state)) !! Gauge.gr = Some 0%float /\
  registry (snd (cycles env n initial_state)) !! Gauge.gn = Some 0%float.
Proof.
  destruct (cycles_frame env n initial_state) as (Ho & Hr & Hn & _).
  simpl in Ho, Hr, Hn. rewrite Ho, Hr, Hn. repeat split.
Qed.

(** X9: a gauge is overwritten, not accumulated: after [n] completed
    cycles and one more, each of the five published gauges holds the mean
    of the lists of the last cycle alone. *)
Theorem gauges_hold_last_cycle (n : nat) st s s1 (mt mh mp m2 m10 : float) :
  cycles env n st = (Ok tt, s) ->
  sampling env s = (Ok tt, s1) ->
  average (temps (locals s1)) = Ok (PyFloat mt) ->
  average (humidities (locals s1)) = Ok (PyFloat mh) ->
  average (pressures (locals s1)) = Ok (PyFloat mp) ->
  average (pm2s (locals s1)) = Ok (PyFloat m2) ->
  average (pm10s (locals s1)) = Ok (PyFloat m10) ->
  exists s2,
    cycles env (n + 1) st = (Ok tt, s2) /\
    registry s2 !! Gauge.gt = Some mt /\
    registry s2 !! Gauge.gh = Some mh /\
    registry s2 !! Gauge.gp = Some mp /\
    registry s2 !! Gauge.gp2 = Some m2 /\
    registry s2 !! Gauge.gp10 = Some m10.
Proof.
  intros Hc Hs Ht Hh Hp H2 H10. eexists. split.
  - rewrite cycles_split, (bind_Ok _ _ _ _ _ Hc). simpl.
    unfold read_values. rewrite bind_assoc, (bind_Ok _ _ _ _ _ Hs).
    rewrite (bind_Ok _ _ _ _ _ (publish_run s1 mt mh mp m2 m10 Ht Hh Hp H2 H10)).
    reflexivity.
  - simpl. repeat (split; [by simplify_map_eq|]). by simplify_map_eq.
Qed.

(** X10: the loop has no handler of its own.  After [k] completed cycles,
    an exception that leaves pass [j + 1] of the next cycle ends that
    cycle and every later one: no further call is issued and the gauges
    keep the values of the last completed cycle. *)
Theorem pass_failure_ends_loop (k j m : nat) st0 sk st e st' :
  cycles env k st0 = (Ok tt, sk) ->
  (j < 5)%nat ->
  passes env j sk = (Ok tt, st) ->
  sub_sample env st = (Raise e, st') ->
  cycles env (k + S m) st0 = (Raise e, st') /\
  registry st' = registry sk.
Proof.
  intros Hc Hj Hp Hb. split.
  - rewrite cycles_split, (bind_Ok _ _ _ _ _ Hc).
    apply cycles_raise.
    eapply read_values_raises_in_pass; eassumption.
  - apply touches_no_gauge_registry.
    apply (touches_trans _ _ st); [eapply passes_touches, Hp|].
    eapply sub_sample_touches, Hb.
Qed.

End Loop.


(** On the bench the first cycle leaves about 18.76 in shop_temperature
    and the second, whose raw temperatures are all 20, leaves 17.8. *)
Lemma gauges_hold_last_cycle_witness :
  registry (snd (cycles bench 1 initial_state)) !! Gauge.gt
    = Some 18.759999999999998%float /\
  exists s2,
    cycles bench 2 initial_state = (Ok tt, s2) /\
    registry s2 !! Gauge.gt = Some 17.8%float.
Proof.
  split; [vm_compute; reflexivity|].
  destruct (gauges_hold_last_cycle bench 1 initial_state
              (snd (cycles bench 1 initial_state))
              (snd (sampling bench (snd (cycles bench 1 initial_state))))
              17.8 65 101325 7 12)
    as (s2 & Hrun & Ht & _); try (vm_compute; reflexivity).
  exists s2. split; assumption.
Defined.

Lemma pass_failure_ends_loop_witness :
  cycles pms_fails_in_second_cycle 3 initial_state =
    (Raise ChecksumMismatchError,
     snd (sub_sample pms_fails_in_second_cycle
            (snd (passes pms_fails_in_second_cycle 0
                    (snd (cycles pms_fails_in_second_cycle 1
                            initial_state)))))) /\
  registry (snd (cycles pms_fails_in_second_cycle 3 initial_state)) !! Gauge.gt
    = Some 18.759999999999998%float.
Proof.
  destruct (pass_failure_ends_loop pms_fails_in_second_cycle 1 0 1
              initial_state
              (snd (cycles pms_fails_in_second_cycle 1 initial_state))
              (snd (passes pms_fails_in_second_cycle 0
                      (snd (cycles pms_fails_in_second_cycle 1
                              initial_state))))
              ChecksumMismatchError
              (snd (sub_sample pms_fails_in_second_cycle
                      (snd (passes pms_fails_in_second_cycle 0
                              (snd (cycles pms_fails_in_second_cycle 1
                                      initial_state)))))))
    as [Hrun Hreg].
  - vm_compute. reflexivity.
  - lia.
  - vm_compute. reflexivity.
  - vm_compute. reflexivity.
  - split; [exact Hrun|]. vm_compute. reflexivity.
Defined.

(* ================================================================= *)
(** ** The calls of a run of cycles *)

Lemma count_calls_app is_ev (d1 d2 : list event) :
  count_calls is_ev (d1 ++ d2)
  = (count_calls is_ev d1 + count_calls is_ev d2)%nat.
Proof.
  induction d1 as [|ev d1 IH]; simpl; [reflexivity|]. rewrite IH. lia.
Qed.

Lemma five_passes_counts (retried : list bool) :
  length retried = 5%nat ->
  let d := concat (map pass_calls retried) in
  count_calls is_gas_read d = 5%nat /\
  count_calls is_sleep d = 5%nat /\
  (count_calls is_pms_reset d <= 5)%nat /\
  count_calls is_gauge_set d = 0%nat.
Proof.
  intros Hlen.
  destruct retried as [|b1 [|b2 [|b3 [|b4 [|b5 [|b6 bs]]]]]];
    try discriminate Hlen.
  destruct b1, b2, b3, b4, b5; simpl; repeat split; lia.
Qed.

Lemma gauge_set_Ok_inv name v st (u : unit) st' :
  gauge_set name v st = (Ok u, st') ->
  exists f, py_float v = Ok f /\ trace st' = trace st ++ [GaugeSet name f].
Proof.
  unfold gauge_set. intros H. run_Ok H. injection H as _ <-.
  exists a. split; [exact Hstep | reflexivity].
Qed.

Lemma publish_Ok_calls st st' :
  publish st = (Ok tt, st') ->
  exists mt mh mp m2 m10 : float,
    trace st' = trace st ++
      [GaugeSet Gauge.gt mt; GaugeSet Gauge.gh mh; GaugeSet Gauge.gp mp;
       GaugeSet Gauge.gp2 m2; GaugeSet Gauge.gp10 m10].
Proof.
  unfold publish. intros H. run_Ok H. injection Hstep as <-.
  apply gauge_set_Ok_inv in Hstep1. destruct Hstep1 as (mt & _ & E1).
  apply gauge_set_Ok_inv in Hstep3. destruct Hstep3 as (mh & _ & E2).
  apply gauge_set_Ok_inv in Hstep5. destruct Hstep5 as (mp & _ & E3).
  apply gauge_set_Ok_inv in Hstep7. destruct Hstep7 as (m2 & _ & E4).
  apply gauge_set_Ok_inv in H. destruct H as (m10 & _ & E5).
  exists mt, mh, mp, m2, m10.
  rewrite E5, E4, E3, E2, E1, <- !app_assoc. reflexivity.
Qed.

(** X11: [n] cycles that complete have issued five sleeps of one second,
    five reads of the gas sensor and five gauge writes per cycle, and at
    most five resets of the particulate sensor per cycle. *)
Theorem cycles_calls env (n : nat) st st' :
  cycles env n st = (Ok tt, st') ->
  exists d,
    trace st' = trace st ++ d /\
    count_calls is_sleep d = (5 * n)%nat /\
    count_calls is_gas_read d = (5 * n)%nat /\
    count_calls is_gauge_set d = (5 * n)%nat /\
    (count_calls is_pms_reset d <= 5 * n)%nat.
Proof.
  revert st. induction n as [|n IH]; intros st H.
  - injection H as <-. exists []. simpl.
    split; [symmetry; apply app_nil_r|]. repeat split; lia.
  - simpl in H. apply bind_Ok_inv in H. destruct H as ([] & s & Hcycle & H).
    unfold read_values in Hcycle.
    apply bind_Ok_inv in Hcycle. destruct Hcycle as ([] & s1 & Hs & Hp).
    unfold sampling in Hs.
    apply bind_Ok_inv in Hs. destruct Hs as ([] & s0 & Hinit & Hs).
    injection Hinit as <-.
    destruct (for_range_Ok_calls env 5 _ _ Hs) as (bs & Hlen & Hbs).
    destruct (five_passes_counts bs Hlen) as (C1 & C2 & C3 & C4).
    destruct (publish_Ok_calls _ _ Hp) as (mt & mh & mp & m2 & m10 & Hpub).
    destruct (IH _ H) as (d & Hd & D1 & D2 & D3 & D4).
    eexists. split.
    + rewrite Hd, Hpub, Hbs. simpl. rewrite <- !app_assoc. reflexivity.
    + rewrite !count_calls_app, C1, C2, C4, D1, D2, D3. simpl.
      repeat split; lia.
Qed.

Lemma cycles_calls_witness :
  exists d,
    trace (snd (cycles pms_times_out_once 2 initial_state)) = d /\
    count_calls is_sleep d = 10%nat /\
    count_calls is_gauge_set d = 10%nat /\
    (count_calls is_pms_reset d <= 10)%nat.
Proof.
  destruct (cycles_calls pms_times_out_once 2 initial_state
              (snd (cycles pms_times_out_once 2 initial_state)))
    as (d & Ht & Hs & _ & Hg & Hr).
  - vm_compute. reflexivity.
  - exists d.
    change (trace (snd (cycles pms_times_out_once 2 initial_state)) = d) in Ht.
    repeat split; assumption.
Defined.

(* ================================================================= *)
(** ** The factor 0 *)

Lemma py_truediv_float_zero (d : float) y f :
  py_float y = Ok f -> (f =? 0)%float = true ->
  py_truediv (PyFloat d) y = Raise ZeroDivisionError.
Proof.
  intros H Hz. unfold py_truediv.
  destruct y; rewrite H; simpl; rewrite Hz; reflexivity.
Qed.

(** X12: with a factor whose value is zero (the int 0, 0.0 or -0.0),
    [comp_temp] raises ZeroDivisionError, and only after it has read both
    the thermal-zone file and the temperature sensor. *)
Theorem comp_temp_zero_factor env st s raw_temp factor (cpu raw f : float) :
  get_cpu_temperature env st = (Ok (PyFloat cpu), s) ->
  bme280_get_temperature env (trace s) = Ok raw_temp ->
  py_float raw_temp = Ok raw ->
  py_float factor = Ok f ->
  (f =? 0)%float = true ->
  comp_temp env factor st = (Raise ZeroDivisionError, emit GetTemperature s).
Proof.
  intros Hcpu Hraw Hr Hf Hz. unfold comp_temp.
  rewrite (bind_Ok _ _ _ _ _ Hcpu). unfold bind, call, lift. rewrite Hraw.
  rewrite (py_sub_float_l cpu raw_temp raw Hr). simpl.
  rewrite (py_truediv_float_zero _ factor f Hf Hz). reflexivity.
Qed.

Lemma comp_temp_zero_factor_witness :
  comp_temp bench (PyInt 0) initial_state =
    (Raise ZeroDivisionError,
     extend [ThermalZoneRead; GetTemperature] initial_state) /\
  comp_temp bench (PyFloat (-0)) initial_state =
    (Raise ZeroDivisionError,
     extend [ThermalZoneRead; GetTemperature] initial_state).
Proof.
  split.
  - apply (comp_temp_zero_factor bench initial_state
             (emit ThermalZoneRead initial_state) (PyFloat 20) (PyInt 0)
             30 20 0); vm_compute; reflexivity.
  - apply (comp_temp_zero_factor bench initial_state
             (emit ThermalZoneRead initial_state) (PyFloat 20)
             (PyFloat (-0)) 30 20 (-0)); vm_compute; reflexivity.
Defined.
